(** * Azure AI integration: translation, completion, extraction, pipeline

    A shallow embedding of the Python modules [translator.py],
    [openai_client.py], [document_processor.py] and [main.py], and the
    properties of their result envelopes that the specification states.

    Conventions of the embedding.
    - Python values that travel through the result dictionaries are
      [pyval]; a [dict] is an association list in insertion order.
    - A Python [str] is a [string]; the text operations that the code
      uses ([rstrip], [lstrip], [lower], concatenation, comparison) act
      on ASCII characters only, so the byte view and the code-point view
      agree on them.
    - The outside world (environment variables, the file system, the
      HTTP library, the chat-completion SDK, the document parsers) is a
      record of oracles, [World]; each oracle sees the interactions with
      the world so far, so that it may answer differently from call to
      call.  Entries into the repository's own functions are recorded in
      the trace as ghost events, which no oracle sees.
    - Every function of the repository is a computation in the monad [M]:
      it threads the trace of events and either returns a value or raises
      a Python exception. *)

From Stdlib Require Import String Ascii List ZArith Bool Lia QArith.
From Stdlib Require Import DecimalString.
Import ListNotations.
#[local] Set Warnings "-register-all".
Local Open Scope string_scope.
Local Open Scope Z_scope.

(** ** Python values *)

Inductive pyval : Type :=
| PNone
| PBool (b : bool)
| PInt (z : Z)
| PStr (s : string)
| PList (l : list pyval)
| PDict (d : list (string * pyval)).

Definition dict := list (string * pyval).

(** [d.get(k)] on an association list: [None] when the key is absent. *)
Fixpoint lookup (k : string) (d : dict) : option pyval :=
  match d with
  | [] => None
  | (k', v) :: d' => if String.eqb k k' then Some v else lookup k d'
  end.

Definition has_key (k : string) (d : dict) : bool :=
  match lookup k d with Some _ => true | None => false end.

(** [d[k] = v]: replaces the value in place, or appends a new key. *)
Fixpoint setitem (k : string) (v : pyval) (d : dict) : dict :=
  match d with
  | [] => [(k, v)]
  | (k', v') :: d' =>
      if String.eqb k k' then (k', v) :: d' else (k', v') :: setitem k v d'
  end.

Definition keys (d : dict) : list string := map fst d.

(** The value under key [k] of a result dictionary. *)
Definition field (k : string) (r : pyval) : option pyval :=
  match r with PDict d => lookup k d | _ => None end.

(** Python truthiness ([bool(v)], what [if v], [not v], [a or b] test). *)
Definition truthy (v : pyval) : bool :=
  match v with
  | PNone => false
  | PBool b => b
  | PInt z => negb (z =? 0)
  | PStr s => negb (String.eqb s "")
  | PList l => match l with [] => false | _ => true end
  | PDict d => match d with [] => false | _ => true end
  end.

(** An [Optional[str]] argument: [None] or a string. *)
Definition of_opt (o : option string) : pyval :=
  match o with Some s => PStr s | None => PNone end.

Definition truthy_opt (o : option string) : bool := truthy (of_opt o).

(** [a or b], for [a] and [b] both [Optional[str]]. *)
Definition or_opt (a b : option string) : option string :=
  if truthy_opt a then a else b.

(** The string held by an [Optional[str]] that is known not to be [None]. *)
Definition opt_str (o : option string) : string :=
  match o with Some s => s | None => "" end.

(** [a or b] where [b] is known to be a [str]. *)
Definition or_str (a : option string) (b : string) : string :=
  match a with
  | Some s => if String.eqb s "" then b else s
  | None => b
  end.

(** ** Strings *)

Definition string_of_Z (z : Z) : string :=
  NilZero.string_of_int (Z.to_int z).

Definition string_of_nat (n : nat) : string :=
  NilZero.string_of_uint (Nat.to_uint n).

(** [s.rstrip(c)] for a single character [c]. *)
Fixpoint rstrip (c : ascii) (s : string) : string :=
  match s with
  | EmptyString => EmptyString
  | String a r =>
      let r' := rstrip c r in
      if (Ascii.eqb a c && String.eqb r' "")%bool then EmptyString
      else String a r'
  end.

(** [s.lstrip(c)] for a single character [c]. *)
Fixpoint lstrip (c : ascii) (s : string) : string :=
  match s with
  | EmptyString => EmptyString
  | String a r => if Ascii.eqb a c then lstrip c r else s
  end.

Definition lower_ascii (a : ascii) : ascii :=
  let n := nat_of_ascii a in
  if (Nat.leb 65 n && Nat.leb n 90)%bool then ascii_of_nat (n + 32) else a.

(** [s.lower()], on the ASCII letters. *)
Fixpoint lower (s : string) : string :=
  match s with
  | EmptyString => EmptyString
  | String a r => String (lower_ascii a) (lower r)
  end.

(** [sep.join(l)]. *)
Fixpoint join (sep : string) (l : list string) : string :=
  match l with
  | [] => ""
  | [x] => x
  | x :: r => x ++ sep ++ join sep r
  end.

Definition nl : string := String (ascii_of_nat 10) EmptyString.

Definition starts_with (p s : string) : bool := String.prefix p s.

(** ** Exceptions and HTTP responses *)

(** What [response.json()] raises when the body is not JSON.  Recent
    versions of the HTTP library raise a subclass of its
    [RequestException]; older ones a plain [ValueError]. *)
Record decode_error : Type := mkDecodeError {
  de_request_exception : bool;
  de_str : string
}.

Record response : Type := mkResponse {
  status_code : Z;
  reason : string;
  resp_url : string;
  resp_json : decode_error + pyval
}.

Inductive exn_class : Type :=
| HTTPError (r : response)      (* requests.exceptions.HTTPError *)
| RequestException              (* any other requests.exceptions.RequestException *)
| OtherException (name : string). (* any other subclass of Exception *)

(** An exception object: its class, [str(e)], and the attributes
    [e.message] and [e.body] when it has them. *)
Record exn : Type := mkExn {
  exn_cls : exn_class;
  exn_str : string;
  exn_message : option pyval;
  exn_body : option pyval
}.

Definition builtin_error (name msg : string) : exn :=
  mkExn (OtherException name) msg None None.

Definition request_exception (msg : string) : exn :=
  mkExn RequestException msg None None.

Definition of_decode_error (e : decode_error) : exn :=
  if de_request_exception e then request_exception (de_str e)
  else builtin_error "ValueError" (de_str e).

(** ** Requests sent to the two providers *)

Record post_request : Type := mkPost {
  post_url : string;
  post_params : list (string * string);
  post_headers : list (string * string);
  post_json : pyval;
  post_timeout : Z
}.

(** The arguments that the chat SDK's client is constructed with. *)
Record client : Type := mkClient {
  client_api_key : option string;
  client_api_version : string;
  client_endpoint : option string
}.

Record chat_request : Type := mkChat {
  chat_model : string;
  chat_messages : list (string * string);   (* role, content *)
  chat_temperature : Q;
  chat_max_tokens : Z
}.

Record usage : Type := mkUsage {
  prompt_tokens : Z;
  completion_tokens : Z;
  total_tokens : Z
}.

(** A chat completion as the SDK returns it: the choices' message
    contents (each a [str] or [None]) and the usage block, which the SDK
    types as optional. *)
Record completion : Type := mkCompletion {
  choices : list (option string);
  completion_usage : option usage
}.

(** ** Events *)

Inductive event : Type :=
(* entries into the repository's own functions (ghost events) *)
| Enter_translate_text (text : pyval) (source_lang target_lang : string)
| Enter_generate_ai_response (prompt : string) (system_message : option string)
| Enter_summarize_text (text style : string)
(* interactions with the outside world *)
| HttpPost (req : post_request)
| HttpGet (url : string) (timeout : Z)
| ClientInit (c : client)
| ChatCreate (c : client) (req : chat_request)
| PathExists (path : string)
| PdfOpen (path : string)
| DocxOpen (path : string)
| FileRead (path : string).

Definition trace := list event.

Definition is_network (e : event) : bool :=
  match e with
  | HttpPost _ | HttpGet _ _ | ClientInit _ | ChatCreate _ _ => true
  | _ => false
  end.

Definition is_parse (e : event) : bool :=
  match e with
  | PdfOpen _ | DocxOpen _ | FileRead _ => true
  | _ => false
  end.

Definition is_ghost (e : event) : bool :=
  match e with
  | Enter_translate_text _ _ _
  | Enter_generate_ai_response _ _
  | Enter_summarize_text _ _ => true
  | _ => false
  end.

Definition is_translate_entry (e : event) : bool :=
  match e with Enter_translate_text _ _ _ => true | _ => false end.

(** ** The outside world *)

(** The oracles answer as the libraries do.  In particular [read_text]
    is what [f.read()] yields for a file opened in text mode as UTF-8:
    the decoded text, with the line ends as Python's newline
    translation delivers them, not the bytes on disk. *)
Record World : Type := mkWorld {
  getenv : string -> option string;
  uuid4 : trace -> string;
  requests_post : trace -> post_request -> exn + response;
  requests_get : trace -> string -> exn + response;
  client_init : trace -> client -> option exn;
  chat_create : trace -> client -> chat_request -> exn + completion;
  py_repr : pyval -> string;
  path_exists : trace -> string -> bool;
  splitext : string -> string * string;
  pdf_pages : trace -> string -> exn + list (exn + option string);
  docx_paragraphs : trace -> string -> exn + list string;
  read_text : trace -> string -> exn + string
}.

Definition getenv_default (w : World) (name default : string) : string :=
  match getenv w name with Some v => v | None => default end.

(** [str(v)] as an f-string formats it.  The [repr] of a container is
    left to the world. *)
Definition py_str (w : World) (v : pyval) : string :=
  match v with
  | PNone => "None"
  | PBool true => "True"
  | PBool false => "False"
  | PInt z => string_of_Z z
  | PStr s => s
  | PList _ | PDict _ => py_repr w v
  end.

(** ** The monad of the embedding: a trace, and a value or an exception *)

Inductive outcome (A : Type) : Type :=
| Returns (a : A)
| Raises (e : exn).
Arguments Returns {A} a.
Arguments Raises {A} e.

Definition M (A : Type) : Type := trace -> outcome A * trace.

Definition ret {A} (a : A) : M A := fun t => (Returns a, t).

Definition bind {A B} (m : M A) (k : A -> M B) : M B :=
  fun t =>
    match m t with
    | (Returns a, t') => k a t'
    | (Raises e, t') => (Raises e, t')
    end.

Definition raise {A} (e : exn) : M A := fun t => (Raises e, t).

(** [try: m  except ... as e: h e]; a handler re-raises what it does
    not catch. *)
Definition try_except {A} (m : M A) (h : exn -> M A) : M A :=
  fun t =>
    match m t with
    | (Returns a, t') => (Returns a, t')
    | (Raises e, t') => h e t'
    end.

Definition emit (e : event) : M unit := fun t => (Returns tt, (t ++ [e])%list).

(** What the oracles are shown: the interactions with the world so
    far, without the ghost events. *)
Definition seen (t : trace) : trace :=
  filter (fun e => negb (is_ghost e)) t.

Definition history : M trace := fun t => (Returns (seen t), t).

Definition lift {A} (r : exn + A) : M A :=
  match r with inl e => raise e | inr a => ret a end.

Declare Scope py_scope.
Delimit Scope py_scope with py.
Notation "x <- m ;; k" := (bind m (fun x => k))
  (at level 61, m at next level, right associativity) : py_scope.
Notation "m ;; k" := (bind m (fun _ => k))
  (at level 61, right associativity) : py_scope.
Local Open Scope py_scope.

(** The events that a computation adds to the trace [t]. *)
Definition new_events {A} (m : M A) (t : trace) : trace :=
  skipn (length t) (snd (m t)).

(** ** Dynamic operations on values *)

(** [len(v)] *)
Definition py_len (v : pyval) : M nat :=
  match v with
  | PStr s => ret (String.length s)
  | PList l => ret (List.length l)
  | PDict d => ret (List.length d)
  | PNone => raise (builtin_error "TypeError" "object of type 'NoneType' has no len()")
  | PBool _ => raise (builtin_error "TypeError" "object of type 'bool' has no len()")
  | PInt _ => raise (builtin_error "TypeError" "object of type 'int' has no len()")
  end.

(** [v[0]] *)
Definition getitem0 (v : pyval) : M pyval :=
  match v with
  | PList (x :: _) => ret x
  | PList [] => raise (builtin_error "IndexError" "list index out of range")
  | PStr (String a _) => ret (PStr (String a EmptyString))
  | PStr EmptyString => raise (builtin_error "IndexError" "string index out of range")
  | PDict _ => raise (builtin_error "KeyError" "0")
  | _ => raise (builtin_error "TypeError" "object is not subscriptable")
  end.

(** [v[k]] for a string key [k] *)
Definition getitem (v : pyval) (k : string) : M pyval :=
  match v with
  | PDict d =>
      match lookup k d with
      | Some x => ret x
      | None => raise (builtin_error "KeyError" ("'" ++ k ++ "'"))
      end
  | PList _ => raise (builtin_error "TypeError" "list indices must be integers or slices, not str")
  | PStr _ => raise (builtin_error "TypeError" "string indices must be integers, not 'str'")
  | _ => raise (builtin_error "TypeError" "object is not subscriptable")
  end.

(** [v.get(k, default)] *)
Definition method_get (v : pyval) (k : string) (default : pyval) : M pyval :=
  match v with
  | PDict d => ret (match lookup k d with Some x => x | None => default end)
  | _ => raise (builtin_error "AttributeError" "object has no attribute 'get'")
  end.

(** [k in v] for a string [k] *)
Fixpoint substring_of (k s : string) : bool :=
  (String.prefix k s ||
   match s with EmptyString => false | String _ r => substring_of k r end)%bool.

Definition pyval_is_str (k : string) (v : pyval) : bool :=
  match v with PStr s => String.eqb k s | _ => false end.

Definition py_in (k : string) (v : pyval) : M bool :=
  match v with
  | PDict d => ret (has_key k d)
  | PList l => ret (existsb (pyval_is_str k) l)
  | PStr s => ret (substring_of k s)
  | _ => raise (builtin_error "TypeError" "argument is not iterable")
  end.

(** * translator.py *)

(** [response.raise_for_status()] of the HTTP library: statuses 400 to
    599 raise [HTTPError], every other status passes. *)
Definition raise_for_status (r : response) : M unit :=
  let s := status_code r in
  if ((400 <=? s) && (s <? 500))%bool then
    raise (mkExn (HTTPError r)
             (string_of_Z s ++ " Client Error: " ++ reason r
                ++ " for url: " ++ resp_url r) None None)
  else if ((500 <=? s) && (s <? 600))%bool then
    raise (mkExn (HTTPError r)
             (string_of_Z s ++ " Server Error: " ++ reason r
                ++ " for url: " ++ resp_url r) None None)
  else ret tt.

(** [response.json()] *)
Definition response_json (r : response) : M pyval :=
  match resp_json r with
  | inl e => raise (of_decode_error e)
  | inr v => ret v
  end.

(** [requests.post(url, params=..., headers=..., json=..., timeout=...)] *)
Definition post (w : World) (req : post_request) : M response :=
  t <- history ;;
  emit (HttpPost req) ;;
  lift (requests_post w t req).

(** [requests.get(url, timeout=...)] *)
Definition get (w : World) (url : string) (timeout : Z) : M response :=
  t <- history ;;
  emit (HttpGet url timeout) ;;
  lift (requests_get w t url).

(** The dictionary that each failing path of [translate_text] returns
    (written out four times in the source, with the same keys). *)
Definition translate_failure (error : string) (text : pyval)
    (source_lang target_lang : string) : pyval :=
  PDict [("success", PBool false);
         ("error", PStr error);
         ("original_text", text);
         ("translated_text", PNone);
         ("source_language", PStr source_lang);
         ("target_language", PStr target_lang)].

Definition missing_translator_key : string :=
  "Missing AZURE_TRANSLATOR_KEY. Please set it in .env file.".

Definition empty_response_error : string :=
  "Empty response from Translator API".

(** The body of [except requests.exceptions.HTTPError as e], up to the
    [return]: the status code, and the provider's message when the body
    can be read; the bare [except: pass] swallows every exception. *)
Definition http_error_message (w : World) (r : response) : M string :=
  let error_msg := "HTTP Error: " ++ string_of_Z (status_code r) in
  try_except
    (error_detail <- response_json r ;;
     present <- py_in "error" error_detail ;;
     if present : bool then
       err <- getitem error_detail "error" ;;
       m <- method_get err "message" (PStr "") ;;
       ret (error_msg ++ " - " ++ py_str w m)
     else ret error_msg)
    (fun _ => ret error_msg).

(** What [translate_text] does with the parsed response body: from
    [if result and len(result) > 0] to the two [return]s under it. *)
Definition unwrap_translation (text : pyval) (source_lang target_lang : string)
    (result : pyval) : M pyval :=
  nonempty <- (if truthy result
               then (n <- py_len result ;; ret (Nat.ltb 0 n))
               else ret false) ;;
  if nonempty : bool then
    translation <- getitem0 result ;;
    translations <- getitem translation "translations" ;;
    first <- getitem0 translations ;;
    translated_text <- getitem first "text" ;;
    detected <- method_get translation "detectedLanguage" (PDict []) ;;
    detected_language <- method_get detected "language" PNone ;;
    ret (PDict [("success", PBool true);
                ("original_text", text);
                ("translated_text", translated_text);
                ("source_language", PStr source_lang);
                ("target_language", PStr target_lang);
                ("detected_language", detected_language);
                ("error", PNone)])
  else
    ret (translate_failure empty_response_error text source_lang target_lang).

(** The [try] block of [translate_text]. *)
Definition translate_request (w : World) (req : post_request)
    (text : pyval) (source_lang target_lang : string) : M pyval :=
  response <- post w req ;;
  raise_for_status response ;;
  result <- response_json response ;;
  unwrap_translation text source_lang target_lang result.

(** The two [except] clauses of [translate_text]. *)
Definition translate_handler (w : World) (text : pyval)
    (source_lang target_lang : string) (e : exn) : M pyval :=
  match exn_cls e with
  | HTTPError r =>
      error_msg <- http_error_message w r ;;
      ret (translate_failure error_msg text source_lang target_lang)
  | RequestException =>
      ret (translate_failure ("Request failed: " ++ exn_str e)
             text source_lang target_lang)
  | OtherException _ => raise e
  end.

Definition translate_text (w : World) (text : pyval)
    (source_lang target_lang : string)
    (api_key region endpoint : option string) : M pyval :=
  emit (Enter_translate_text text source_lang target_lang) ;;
  let api_key := or_opt api_key (getenv w "AZURE_TRANSLATOR_KEY") in
  let region :=
    or_str region (getenv_default w "AZURE_TRANSLATOR_REGION" "centralindia") in
  let endpoint :=
    or_str endpoint
      (getenv_default w "AZURE_TRANSLATOR_ENDPOINT"
         "https://api.cognitive.microsofttranslator.com/") in
  if negb (truthy_opt api_key) then
    ret (translate_failure missing_translator_key text source_lang target_lang)
  else
    let path := "/translate" in
    let api_version := "3.0" in
    let url := rstrip "/" endpoint ++ path in
    let params := [("api-version", api_version);
                   ("from", source_lang);
                   ("to", target_lang)] in
    t <- history ;;
    let headers := [("Ocp-Apim-Subscription-Key", opt_str api_key);
                    ("Ocp-Apim-Subscription-Region", region);
                    ("Content-Type", "application/json");
                    ("X-ClientTraceId", uuid4 w t)] in
    let body := PList [PDict [("text", text)]] in
    try_except
      (translate_request w (mkPost url params headers body 30)
         text source_lang target_lang)
      (translate_handler w text source_lang target_lang).

Definition languages_url (w : World) : string :=
  let endpoint :=
    getenv_default w "AZURE_TRANSLATOR_ENDPOINT"
      "https://api.cognitive.microsofttranslator.com/" in
  rstrip "/" endpoint ++ "/languages?api-version=3.0&scope=translation".

Definition get_supported_languages (w : World) : M pyval :=
  let url := languages_url w in
  try_except
    (response <- get w url 30 ;;
     raise_for_status response ;;
     body <- response_json response ;;
     languages <- method_get body "translation" (PDict []) ;;
     ret (PDict [("success", PBool true); ("languages", languages)]))
    (fun e =>
       ret (PDict [("success", PBool false);
                   ("error", PStr (exn_str e));
                   ("languages", PDict [])])).

(** * openai_client.py *)

Definition get_openai_client (w : World)
    (api_key endpoint api_version : option string) : M client :=
  let c :=
    mkClient
      (or_opt api_key (getenv w "AZURE_OPENAI_API_KEY"))
      (or_str api_version
         (getenv_default w "AZURE_OPENAI_API_VERSION" "2024-02-15-preview"))
      (or_opt endpoint (getenv w "AZURE_OPENAI_ENDPOINT")) in
  t <- history ;;
  emit (ClientInit c) ;;
  match client_init w t c with
  | Some e => raise e
  | None => ret c
  end.

(** [client.chat.completions.create(model=..., messages=..., ...)] *)
Definition create (w : World) (c : client) (req : chat_request)
  : M completion :=
  t <- history ;;
  emit (ChatCreate c req) ;;
  lift (chat_create w t c req).

(** The dictionary that each failing path of [generate_ai_response]
    returns. *)
Definition generate_failure (error prompt : string) : pyval :=
  PDict [("success", PBool false);
         ("error", PStr error);
         ("prompt", PStr prompt);
         ("response", PNone);
         ("usage", PNone)].

Definition missing_openai_key : string :=
  "Missing AZURE_OPENAI_API_KEY. Please set it in .env file.".

Definition missing_openai_endpoint : string :=
  "Missing AZURE_OPENAI_ENDPOINT. Please set it in .env file.".

Definition default_system_message : string :=
  "You are a helpful AI assistant. Provide clear, concise, and accurate responses.".

(** The message list: a system message, the caller's when it is truthy
    and the default one otherwise, and then the user prompt. *)
Definition build_messages (prompt : string) (system_message : option string)
  : list (string * string) :=
  let messages := [] in
  let messages :=
    if truthy_opt system_message
    then (messages ++ [("system", opt_str system_message)])%list
    else (messages ++ [("system", default_system_message)])%list in
  (messages ++ [("user", prompt)])%list.

(** [response.choices[0].message.content] *)
Definition first_content (r : completion) : M (option string) :=
  match choices r with
  | c :: _ => ret c
  | [] => raise (builtin_error "IndexError" "list index out of range")
  end.

(** The usage dictionary; [response.usage] may be [None]. *)
Definition usage_dict (r : completion) : M pyval :=
  match completion_usage r with
  | Some u =>
      ret (PDict [("prompt_tokens", PInt (prompt_tokens u));
                  ("completion_tokens", PInt (completion_tokens u));
                  ("total_tokens", PInt (total_tokens u))])
  | None =>
      raise (builtin_error "AttributeError"
               "'NoneType' object has no attribute 'prompt_tokens'")
  end.

(** The message that the [except Exception as e] clause reports. *)
Definition openai_error_message (w : World) (e : exn) : string :=
  let error_message := exn_str e in
  match exn_message e with
  | Some m => py_str w m
  | None =>
      match exn_body e with
      | Some body =>
          if truthy body then
            match body with
            | PDict d =>
                match lookup "message" d with
                | Some m => py_str w m
                | None => error_message
                end
            | _ => error_message
            end
          else error_message
      | None => error_message
      end
  end.

Definition generate_ai_response (w : World) (prompt : string)
    (system_message : option string) (temperature : Q) (max_tokens : Z)
    (api_key endpoint deployment_name : option string) : M pyval :=
  emit (Enter_generate_ai_response prompt system_message) ;;
  let api_key := or_opt api_key (getenv w "AZURE_OPENAI_API_KEY") in
  let endpoint := or_opt endpoint (getenv w "AZURE_OPENAI_ENDPOINT") in
  let deployment_name :=
    or_str deployment_name
      (getenv_default w "AZURE_OPENAI_DEPLOYMENT_NAME" "gpt-4o-mini") in
  if negb (truthy_opt api_key) then
    ret (generate_failure missing_openai_key prompt)
  else if negb (truthy_opt endpoint) then
    ret (generate_failure missing_openai_endpoint prompt)
  else
    try_except
      (client <- get_openai_client w api_key endpoint None ;;
       let messages := build_messages prompt system_message in
       response <- create w client
                     (mkChat deployment_name messages temperature max_tokens) ;;
       response_text <- first_content response ;;
       usage <- usage_dict response ;;
       ret (PDict [("success", PBool true);
                   ("prompt", PStr prompt);
                   ("response", of_opt response_text);
                   ("usage", usage);
                   ("model", PStr deployment_name);
                   ("error", PNone)]))
      (fun e =>
         ret (generate_failure
                ("OpenAI API Error: " ++ openai_error_message w e) prompt)).

(** The keyword arguments that [summarize_text] passes through to
    [generate_ai_response]: those of its parameters that [summarize_text]
    does not bind itself, each with its default. *)
Record kwargs : Type := mkKwargs {
  kw_temperature : Q;
  kw_max_tokens : Z;
  kw_api_key : option string;
  kw_endpoint : option string;
  kw_deployment_name : option string
}.

Definition no_kwargs : kwargs := mkKwargs (7 # 10) 1000 None None None.

Definition style_prompts : list (string * string) :=
  [("concise",
    "Provide a brief, concise summary of the following text in 2-3 sentences:");
   ("detailed",
    "Provide a comprehensive summary of the following text, covering all key points:");
   ("bullet_points",
    "Summarize the following text as bullet points highlighting the key information:")].

(** [d.get(k, default)] on a dictionary of strings. *)
Fixpoint get_or (k : string) (d : list (string * string)) (default : string)
  : string :=
  match d with
  | [] => default
  | (k', v) :: d' => if String.eqb k k' then v else get_or k d' default
  end.

Definition summarizer_system_message : string :=
  "You are an expert summarizer. Create clear and accurate summaries.".

(** [style_prompts.get(style, style_prompts['concise'])] *)
Definition style_prefix (style : string) : string :=
  get_or style style_prompts (get_or "concise" style_prompts "").

Definition summarize_prompt (text style : string) : string :=
  style_prefix style ++ nl ++ nl ++ text.

(** The default of the parameter [style]. *)
Definition default_style : string := "concise".

Definition summarize_text (w : World) (text style : string) (kw : kwargs)
  : M pyval :=
  emit (Enter_summarize_text text style) ;;
  let system_message := summarizer_system_message in
  let prompt := summarize_prompt text style in
  generate_ai_response w prompt (Some system_message)
    (kw_temperature kw) (kw_max_tokens kw)
    (kw_api_key kw) (kw_endpoint kw) (kw_deployment_name kw).

(** * document_processor.py *)

(** The label and text that a page with text contributes. *)
Definition page_entry (page_num : nat) (page_text : string) : string :=
  "--- Page " ++ string_of_nat page_num ++ " ---" ++ nl ++ page_text.

(** The loop [for page_num, page in enumerate(pdf.pages, 1)], with the
    list [text_content] that it appends to.  A page's [extract_text()]
    gives a string or [None], or raises. *)
Fixpoint pdf_loop (pages : list (exn + option string)) (page_num : nat)
    (text_content : list string) : M (list string) :=
  match pages with
  | [] => ret text_content
  | page :: rest =>
      page_text <- lift page ;;
      let text_content :=
        if truthy_opt page_text
        then (text_content ++ [page_entry page_num (opt_str page_text)])%list
        else text_content in
      pdf_loop rest (S page_num) text_content
  end.

Definition extract_text_from_pdf (w : World) (file_path : string) : M pyval :=
  try_except
    (let text_content := [] in
     t <- history ;;
     emit (PdfOpen file_path) ;;
     pages <- lift (pdf_pages w t file_path) ;;
     text_content <- pdf_loop pages 1 text_content ;;
     let full_text := join (nl ++ nl) text_content in
     ret (PDict [("success", PBool true);
                 ("text", PStr full_text);
                 ("page_count", PInt (Z.of_nat (List.length text_content)));
                 ("file_type", PStr "pdf");
                 ("error", PNone)]))
    (fun e =>
       ret (PDict [("success", PBool false);
                   ("text", PNone);
                   ("error", PStr ("Failed to extract PDF text: " ++ exn_str e))])).

Definition is_space (a : ascii) : bool :=
  let n := nat_of_ascii a in
  ((Nat.leb 9 n && Nat.leb n 13) || (Nat.leb 28 n && Nat.leb n 32))%bool.

(** [s.strip()] is falsy: the string holds white space only (ASCII). *)
Fixpoint is_blank (s : string) : bool :=
  match s with
  | EmptyString => true
  | String a r => (is_space a && is_blank r)%bool
  end.

Definition extract_text_from_docx (w : World) (file_path : string) : M pyval :=
  try_except
    (t <- history ;;
     emit (DocxOpen file_path) ;;
     doc <- lift (docx_paragraphs w t file_path) ;;
     let paragraphs := filter (fun para => negb (is_blank para)) doc in
     let full_text := join (nl ++ nl) paragraphs in
     ret (PDict [("success", PBool true);
                 ("text", PStr full_text);
                 ("paragraph_count", PInt (Z.of_nat (List.length paragraphs)));
                 ("file_type", PStr "docx");
                 ("error", PNone)]))
    (fun e =>
       ret (PDict [("success", PBool false);
                   ("text", PNone);
                   ("error", PStr ("Failed to extract DOCX text: " ++ exn_str e))])).

Definition extract_text_from_txt (w : World) (file_path : string) : M pyval :=
  try_except
    (t <- history ;;
     emit (FileRead file_path) ;;
     text <- lift (read_text w t file_path) ;;
     ret (PDict [("success", PBool true);
                 ("text", PStr text);
                 ("file_type", PStr "txt");
                 ("error", PNone)]))
    (fun e =>
       ret (PDict [("success", PBool false);
                   ("text", PNone);
                   ("error", PStr ("Failed to read text file: " ++ exn_str e))])).

(** [os.path.exists(file_path)] *)
Definition exists_ (w : World) (file_path : string) : M bool :=
  t <- history ;;
  emit (PathExists file_path) ;;
  ret (path_exists w t file_path).

Definition extractors : list (string * (World -> string -> M pyval)) :=
  [("pdf", extract_text_from_pdf);
   ("docx", extract_text_from_docx);
   ("txt", extract_text_from_txt);
   ("text", extract_text_from_txt)].

Fixpoint get_extractor (k : string)
    (d : list (string * (World -> string -> M pyval)))
  : option (World -> string -> M pyval) :=
  match d with
  | [] => None
  | (k', f) :: d' => if String.eqb k k' then Some f else get_extractor k d'
  end.

(** The type that [extract_text] routes on: the hint when it is truthy,
    the lower-cased extension without its leading dots otherwise. *)
Definition resolve_type (w : World) (file_path : string)
    (file_type : option string) : string :=
  if negb (truthy_opt file_type) then
    let '(_, ext) := splitext w file_path in
    lstrip "." (lower ext)
  else opt_str file_type.

Definition unsupported_error (file_type : string) : string :=
  "Unsupported file type: " ++ file_type ++ ". Supported: pdf, docx, txt".

Definition extract_text (w : World) (file_path : string)
    (file_type : option string) : M pyval :=
  found <- exists_ w file_path ;;
  if negb found then
    ret (PDict [("success", PBool false);
                ("text", PNone);
                ("error", PStr ("File not found: " ++ file_path))])
  else
    let file_type := resolve_type w file_path file_type in
    match get_extractor file_type extractors with
    | None =>
        ret (PDict [("success", PBool false);
                    ("text", PNone);
                    ("error", PStr (unsupported_error file_type))])
    | Some extractor => extractor w file_path
    end.

(** * main.py *)

(** [d[outer][inner] = v] *)
Definition setitem_in (outer inner : string) (v : pyval) (d : dict) : M dict :=
  sub <- getitem (PDict d) outer ;;
  match sub with
  | PDict s => ret (setitem outer (PDict (setitem inner v s)) d)
  | _ => raise (builtin_error "TypeError"
                  "object does not support item assignment")
  end.

(** What the progress line [print(f"{v[:200]}..." if len(v) > 200 else
    f"{v}")] evaluates: [len(v)], and a slice when [v] is long.  The
    console output itself is not part of the trace. *)
Definition preview (v : pyval) : M unit :=
  n <- py_len v ;;
  if Nat.ltb 200 n then
    match v with
    | PDict _ => raise (builtin_error "TypeError" "unhashable type: 'slice'")
    | _ => ret tt
    end
  else ret tt.

(** The end of [process_and_translate], from the test of the translation
    result on. *)
Definition finish_pipeline (w : World) (input_text target_language : string)
    (result : dict) (summary translation_result : pyval) : M pyval :=
  ok <- getitem translation_result "success" ;;
  if negb (truthy ok) then
    error <- getitem translation_result "error" ;;
    let result := setitem "success" (PBool false) result in
    let result :=
      setitem "error" (PStr ("Translator stage failed: " ++ py_str w error))
        result in
    ret (PDict result)
  else
    translated_text <- getitem translation_result "translated_text" ;;
    preview translated_text ;;
    let result := setitem "success" (PBool true) result in
    let result :=
      setitem "final_output"
        (PDict [("original_text", PStr input_text);
                ("english_summary", summary);
                ("translated_summary", translated_text);
                ("target_language", PStr target_language)])
        result in
    ret (PDict result).

(** The middle of [process_and_translate], once the summary has
    succeeded: the progress lines of stage 1, and stage 2. *)
Definition translate_stage (w : World) (input_text target_language : string)
    (result : dict) (summary_result : pyval) : M pyval :=
  summary <- getitem summary_result "response" ;;
  preview summary ;;
  usage <- getitem summary_result "usage" ;;
  _ <- getitem usage "total_tokens" ;;
  translation_result <-
    translate_text w summary "en" target_language None None None ;;
  result <- setitem_in "stages" "translator" translation_result result ;;
  finish_pipeline w input_text target_language result summary
    translation_result.

Definition process_and_translate (w : World)
    (input_text target_language summary_style : string) : M pyval :=
  let result := [("input", PStr input_text);
                 ("target_language", PStr target_language);
                 ("stages", PDict [])] in
  summary_result <- summarize_text w input_text summary_style no_kwargs ;;
  result <- setitem_in "stages" "openai_summary" summary_result result ;;
  ok <- getitem summary_result "success" ;;
  if negb (truthy ok) then
    error <- getitem summary_result "error" ;;
    let result := setitem "success" (PBool false) result in
    let result :=
      setitem "error" (PStr ("OpenAI stage failed: " ++ py_str w error))
        result in
    ret (PDict result)
  else
    translate_stage w input_text target_language result summary_result.

(** * Descriptions of the results, for the statements below *)

(** The [text] of the first translation candidate in a response body
    [[{"translations": [{"text": ...}, ...], ...}, ...]]. *)
Definition first_candidate_text (body : pyval) : option pyval :=
  match body with
  | PList (PDict translation :: _) =>
      match lookup "translations" translation with
      | Some (PList (PDict candidate :: _)) => lookup "text" candidate
      | _ => None
      end
  | _ => None
  end.

(** The provider's message in an error body [{"error": {"message": ...}}]:
    present when the body is JSON, is an object, and holds an object
    under ["error"]; the empty string stands in for a missing message. *)
Definition provider_message (w : World) (r : response) : option string :=
  match resp_json r with
  | inr (PDict d) =>
      match lookup "error" d with
      | Some (PDict e) =>
          Some (py_str w (match lookup "message" e with
                          | Some m => m
                          | None => PStr ""
                          end))
      | _ => None
      end
  | _ => None
  end.

(** The error text of the failure that [translate_text] reports for a
    response that [raise_for_status] rejects. *)
Definition http_error_text (w : World) (r : response) : string :=
  "HTTP Error: " ++ string_of_Z (status_code r)
    ++ match provider_message w r with
       | Some m => " - " ++ m
       | None => ""
       end.

Definition is_2xx (r : response) : bool :=
  ((200 <=? status_code r) && (status_code r <? 300))%bool.

(** The statuses that [raise_for_status] rejects. *)
Definition is_error_status (r : response) : bool :=
  ((400 <=? status_code r) && (status_code r <? 600))%bool.

(** The request that [translate_text] sends, given the configuration in
    force and the trace identifier drawn for the call. *)
Definition translate_post (key region endpoint : string) (text : pyval)
    (source_lang target_lang trace_id : string) : post_request :=
  mkPost (rstrip "/" endpoint ++ "/translate")
    [("api-version", "3.0"); ("from", source_lang); ("to", target_lang)]
    [("Ocp-Apim-Subscription-Key", key);
     ("Ocp-Apim-Subscription-Region", region);
     ("Content-Type", "application/json");
     ("X-ClientTraceId", trace_id)]
    (PList [PDict [("text", text)]]) 30.

(** The configuration in force for a call of [translate_text]: each
    argument, or the environment when the argument is falsy. *)
Definition translator_key (w : World) (api_key : option string)
  : option string :=
  or_opt api_key (getenv w "AZURE_TRANSLATOR_KEY").

Definition translator_region (w : World) (region : option string) : string :=
  or_str region (getenv_default w "AZURE_TRANSLATOR_REGION" "centralindia").

Definition translator_endpoint (w : World) (endpoint : option string)
  : string :=
  or_str endpoint
    (getenv_default w "AZURE_TRANSLATOR_ENDPOINT"
       "https://api.cognitive.microsofttranslator.com/").

(** The request that a configured call sends from the trace [t]. *)
Definition translate_request_of (w : World) (text : pyval)
    (source_lang target_lang : string)
    (api_key region endpoint : option string) (t : trace) : post_request :=
  translate_post (opt_str (translator_key w api_key))
    (translator_region w region) (translator_endpoint w endpoint)
    text source_lang target_lang
    (uuid4 w (seen (t ++ [Enter_translate_text text source_lang target_lang])%list)).

(** "Exactly one of [translated_text] and [error] is populated", as the
    specification words it. *)
Definition populates_exactly_one (r : pyval) : Prop :=
  (field "success" r = Some (PBool true) ->
   (exists v, field "translated_text" r = Some v /\ v <> PNone) /\
   field "error" r = Some PNone)
  /\
  (field "success" r = Some (PBool false) ->
   (exists m, field "error" r = Some (PStr m)) /\
   field "translated_text" r = Some PNone).

(** The translation provider keeps to its documented reply
    [[{"translations": [{"text": "..."}], ...}]]: in the body of a
    response, the [text] of the first translation candidate, when there
    is one, is a string. *)
Definition provider_contract (w : World) : Prop :=
  forall (history : trace) (req : post_request) (resp : response)
         (body v : pyval),
    requests_post w history req = inr resp ->
    resp_json resp = inr body ->
    first_candidate_text body = Some v ->
    exists s, v = PStr s.

(** The two envelopes of [get_supported_languages]. *)
Definition languages_success (languages : pyval) : pyval :=
  PDict [("success", PBool true); ("languages", languages)].

Definition languages_failure (error : string) : pyval :=
  PDict [("success", PBool false);
         ("error", PStr error);
         ("languages", PDict [])].

(** The configuration in force for a call of [generate_ai_response]. *)
Definition openai_key (w : World) (api_key : option string) : option string :=
  or_opt api_key (getenv w "AZURE_OPENAI_API_KEY").

Definition openai_endpoint (w : World) (endpoint : option string)
  : option string :=
  or_opt endpoint (getenv w "AZURE_OPENAI_ENDPOINT").

Definition openai_deployment (w : World) (deployment_name : option string)
  : string :=
  or_str deployment_name
    (getenv_default w "AZURE_OPENAI_DEPLOYMENT_NAME" "gpt-4o-mini").

(** The client that a configured call constructs. *)
Definition openai_client_of (w : World) (api_key endpoint : option string)
  : client :=
  mkClient
    (or_opt (openai_key w api_key) (getenv w "AZURE_OPENAI_API_KEY"))
    (or_str None
       (getenv_default w "AZURE_OPENAI_API_VERSION" "2024-02-15-preview"))
    (or_opt (openai_endpoint w endpoint) (getenv w "AZURE_OPENAI_ENDPOINT")).

Definition openai_failure (w : World) (prompt : string) (e : exn) : pyval :=
  generate_failure ("OpenAI API Error: " ++ openai_error_message w e) prompt.

(** The envelope that a completion is turned into. *)
Definition completion_result (w : World) (prompt deployment_name : string)
    (r : completion) : pyval :=
  match choices r with
  | [] =>
      openai_failure w prompt
        (builtin_error "IndexError" "list index out of range")
  | response_text :: _ =>
      match completion_usage r with
      | None =>
          openai_failure w prompt
            (builtin_error "AttributeError"
               "'NoneType' object has no attribute 'prompt_tokens'")
      | Some u =>
          PDict [("success", PBool true);
                 ("prompt", PStr prompt);
                 ("response", of_opt response_text);
                 ("usage",
                  PDict [("prompt_tokens", PInt (prompt_tokens u));
                         ("completion_tokens", PInt (completion_tokens u));
                         ("total_tokens", PInt (total_tokens u))]);
                 ("model", PStr deployment_name);
                 ("error", PNone)]
      end
  end.

(** [generate_ai_response] read as a decision table: the result and the
    trace of a call, by the configuration and the answers of the SDK. *)
Definition generate_ai_response_table (w : World) (prompt : string)
    (system_message : option string) (temperature : Q) (max_tokens : Z)
    (api_key endpoint deployment_name : option string) (t : trace)
  : pyval * list event :=
  if negb (truthy_opt (openai_key w api_key)) then
    (generate_failure missing_openai_key prompt, [])
  else if negb (truthy_opt (openai_endpoint w endpoint)) then
    (generate_failure missing_openai_endpoint prompt, [])
  else
    let c := openai_client_of w api_key endpoint in
    match client_init w (seen t) c with
    | Some e => (openai_failure w prompt e, [ClientInit c])
    | None =>
        let req := mkChat (openai_deployment w deployment_name)
                     (build_messages prompt system_message)
                     temperature max_tokens in
        (match chat_create w (seen t ++ [ClientInit c])%list c req with
         | inl e => openai_failure w prompt e
         | inr r =>
             completion_result w prompt
               (openai_deployment w deployment_name) r
         end,
         [ClientInit c; ChatCreate c req])
    end.

(** The instruction line of each summary style, as the specification
    lists them: three styles, and the concise line for any other. *)
Definition instruction_line (style : string) : string :=
  if String.eqb style "detailed" then
    "Provide a comprehensive summary of the following text, covering all key points:"
  else if String.eqb style "bullet_points" then
    "Summarize the following text as bullet points highlighting the key information:"
  else
    "Provide a brief, concise summary of the following text in 2-3 sentences:".

(** The pages of a PDF, numbered from 1, and the entries of those that
    have text. *)
Definition numbered_from (start : nat) (pages : list (option string))
  : list (nat * option string) :=
  combine (seq start (List.length pages)) pages.

Definition has_text (p : nat * option string) : bool := truthy_opt (snd p).

Definition page_entries_from (start : nat) (pages : list (option string))
  : list string :=
  map (fun p => page_entry (fst p) (opt_str (snd p)))
    (filter has_text (numbered_from start pages)).

Definition page_entries (pages : list (option string)) : list string :=
  page_entries_from 1 pages.

(** A computation is [pure] when it leaves the trace as it found it. *)
Definition pure {A} (m : M A) : Prop := forall t, snd (m t) = t.

Definition not_found (file_path : string) : pyval :=
  PDict [("success", PBool false);
         ("text", PNone);
         ("error", PStr ("File not found: " ++ file_path))].

Definition unsupported (file_type : string) : pyval :=
  PDict [("success", PBool false);
         ("text", PNone);
         ("error",
          PStr ("Unsupported file type: " ++ file_type
                  ++ ". Supported: pdf, docx, txt"))].

(** The envelope of a successful summary. *)
Definition summary_success (prompt : string) (content : option string)
    (u : usage) (model : string) : pyval :=
  PDict [("success", PBool true);
         ("prompt", PStr prompt);
         ("response", of_opt content);
         ("usage",
          PDict [("prompt_tokens", PInt (prompt_tokens u));
                 ("completion_tokens", PInt (completion_tokens u));
                 ("total_tokens", PInt (total_tokens u))]);
         ("model", PStr model);
         ("error", PNone)].

(** * A POSIX file system's [os.path.splitext], and sample worlds *)

(** The last index of [c] in [s], counting from [i]; [-1] when absent. *)
Fixpoint rfind (c : ascii) (s : string) (i : Z) : Z :=
  match s with
  | EmptyString => -1
  | String a r =>
      let k := rfind c r (i + 1) in
      if 0 <=? k then k else if Ascii.eqb a c then i else -1
  end.

Fixpoint all_dots (s : string) : bool :=
  match s with
  | EmptyString => true
  | String a r => (Ascii.eqb a "." && all_dots r)%bool
  end.

Definition posix_splitext (p : string) : string * string :=
  let sepIndex := rfind "/" p 0 in
  let dotIndex := rfind "." p 0 in
  if sepIndex <? dotIndex then
    let name := substring (Z.to_nat (sepIndex + 1))
                  (Z.to_nat (dotIndex - sepIndex - 1)) p in
    if all_dots name then (p, "")
    else (substring 0 (Z.to_nat dotIndex) p,
          substring (Z.to_nat dotIndex)
            (String.length p - Z.to_nat dotIndex) p)
  else (p, "").

(** A machine with no configuration, no files and no network. *)
Definition offline : World :=
  mkWorld
    (fun _ => None)
    (fun _ => "00000000-0000-4000-8000-000000000000")
    (fun _ _ => inl (request_exception "Connection refused"))
    (fun _ _ => inl (request_exception "Connection refused"))
    (fun _ _ => None)
    (fun _ _ _ => inl (builtin_error "APIConnectionError" "Connection error."))
    (fun _ => "<container>")
    (fun _ _ => false)
    posix_splitext
    (fun _ _ => inl (builtin_error "FileNotFoundError" "No such file"))
    (fun _ _ => inl (builtin_error "PackageNotFoundError" "Package not found"))
    (fun _ _ => inl (builtin_error "FileNotFoundError" "No such file")).

Fixpoint assoc (k : string) (d : list (string * string)) : option string :=
  match d with
  | [] => None
  | (k', v) :: d' => if String.eqb k k' then Some v else assoc k d'
  end.

Definition with_env (env : list (string * string)) (w : World) : World :=
  mkWorld (fun k => assoc k env)
    (uuid4 w) (requests_post w) (requests_get w) (client_init w)
    (chat_create w) (py_repr w) (path_exists w) (splitext w) (pdf_pages w)
    (docx_paragraphs w) (read_text w).

Definition with_post (answer : exn + response) (w : World) : World :=
  mkWorld (getenv w) (uuid4 w) (fun _ _ => answer) (requests_get w)
    (client_init w) (chat_create w) (py_repr w) (path_exists w) (splitext w)
    (pdf_pages w) (docx_paragraphs w) (read_text w).

Definition with_get (answer : exn + response) (w : World) : World :=
  mkWorld (getenv w) (uuid4 w) (requests_post w) (fun _ _ => answer)
    (client_init w) (chat_create w) (py_repr w) (path_exists w) (splitext w)
    (pdf_pages w) (docx_paragraphs w) (read_text w).

Definition with_chat (answer : exn + completion) (w : World) : World :=
  mkWorld (getenv w) (uuid4 w) (requests_post w) (requests_get w)
    (client_init w) (fun _ _ _ => answer) (py_repr w) (path_exists w)
    (splitext w) (pdf_pages w) (docx_paragraphs w) (read_text w).

(** A file system that holds the one file [path]: a PDF with the given
    pages, and a text file with the given content. *)
Definition with_file (path : string) (pages : list (exn + option string))
    (content : string) (w : World) : World :=
  mkWorld (getenv w) (uuid4 w) (requests_post w) (requests_get w)
    (client_init w) (chat_create w) (py_repr w)
    (fun _ p => String.eqb p path) (splitext w)
    (fun t p => if String.eqb p path then inr pages else pdf_pages w t p)
    (docx_paragraphs w)
    (fun t p => if String.eqb p path then inr content else read_text w t p).

Definition ok_response (status : Z) (body : pyval) : response :=
  mkResponse status "" "https://api.cognitive.microsofttranslator.com/" (inr body).

(** A provider that translates to "namaste", and the envelope that
    [translate_text] then returns for "Hello". *)
Definition hello_world : World :=
  with_post
    (inr (ok_response 200
            (PList [PDict [("translations",
                            PList [PDict [("text", PStr "namaste")]])]])))
    offline.

Definition hello_result : pyval :=
  PDict [("success", PBool true);
         ("original_text", PStr "Hello");
         ("translated_text", PStr "namaste");
         ("source_language", PStr "en");
         ("target_language", PStr "hi");
         ("detected_language", PNone);
         ("error", PNone)].

(** A provider that answers 300 (a status that the HTTP library neither
    follows nor rejects) with an empty array. *)
Definition multiple_choices_world : World :=
  with_post (inr (ok_response 300 (PList []))) offline.

(** A provider that answers the languages request with 300 and a
    well-formed body. *)
Definition languages_300_world : World :=
  with_get
    (inr (ok_response 300
            (PDict [("translation",
                     PDict [("en", PDict [("name", PStr "English")])])])))
    offline.

(** A completion with one choice and its usage block. *)
Definition short_summary : completion :=
  mkCompletion [Some "A short summary."] (Some (mkUsage 40 5 45)).

(** A machine on which the chat provider is configured and answers. *)
Definition chat_world (answer : exn + completion) : World :=
  with_chat answer
    (with_env [("AZURE_OPENAI_API_KEY", "key");
               ("AZURE_OPENAI_ENDPOINT", "https://example.openai.azure.com/")]
       offline).

(** A machine on which both providers are configured and answer. *)
Definition pipeline_world : World :=
  with_post
    (inr (ok_response 200
            (PList [PDict [("translations",
                            PList [PDict [("text", PStr "saransh")]])]])))
    (with_chat (inr short_summary)
       (with_env [("AZURE_OPENAI_API_KEY", "key");
                  ("AZURE_OPENAI_ENDPOINT", "https://example.openai.azure.com/");
                  ("AZURE_TRANSLATOR_KEY", "key")]
          offline)).

(** A PDF of two pages, both with text. *)
Definition two_page_pdf : World :=
  with_file "/tmp/report.pdf" [inr (Some "alpha"); inr (Some "beta")] "" offline.

(** A PDF whose second page has no text. *)
Definition blank_second_page : World :=
  with_file "/tmp/scan.pdf"
    [inr (Some "alpha"); inr None; inr (Some "gamma")] "" offline.

(** A text file whose name ends in [.text]. *)
Definition notes_world : World :=
  with_file "/tmp/notes.text" [] "hello" offline.

(** * Further descriptions, for the properties beyond the specification *)

(** [c * n] *)
Fixpoint repeat_char (c : ascii) (n : nat) : string :=
  match n with
  | O => EmptyString
  | S n' => String c (repeat_char c n')
  end.

(** [s.endswith(c)] *)
Fixpoint ends_with_char (c : ascii) (s : string) : bool :=
  match s with
  | EmptyString => false
  | String a EmptyString => Ascii.eqb a c
  | String _ r => ends_with_char c r
  end.

(** The envelope of a successful translation. *)
Definition translate_success (text : pyval) (source_lang target_lang : string)
    (translated_text detected_language : pyval) : pyval :=
  PDict [("success", PBool true);
         ("original_text", text);
         ("translated_text", translated_text);
         ("source_language", PStr source_lang);
         ("target_language", PStr target_lang);
         ("detected_language", detected_language);
         ("error", PNone)].

(** The [detected_language] that a translation entry yields: the
    [language] under [detectedLanguage], [None] when either is missing;
    nothing when [detectedLanguage] is not an object (the lookup
    raises). *)
Definition detected_language_of (translation : dict) : option pyval :=
  match lookup "detectedLanguage" translation with
  | None => Some PNone
  | Some (PDict detected) =>
      Some (match lookup "language" detected with
            | Some language => language
            | None => PNone
            end)
  | Some _ => None
  end.

(** A provider that detects the source language. *)
Definition detecting_world : World :=
  with_post
    (inr (ok_response 200
            (PList [PDict [("detectedLanguage",
                            PDict [("language", PStr "en");
                                   ("score", PInt 1)]);
                           ("translations",
                            PList [PDict [("text", PStr "namaste");
                                          ("to", PStr "hi")]])]])))
    offline.

(** A provider whose answer has an entry with no translations. *)
Definition malformed_world : World :=
  with_post (inr (ok_response 200 (PList [PDict []]))) offline.

(** * openai_client.py, continued *)

Definition audience_prompts : list (string * string) :=
  [("general", "Explain the following in simple, everyday language:");
   ("technical", "Provide a technical explanation of the following:");
   ("beginner", "Explain the following as if teaching a complete beginner:")].

(** [audience_prompts.get(audience, audience_prompts['general'])] *)
Definition audience_prefix (audience : string) : string :=
  get_or audience audience_prompts (get_or "general" audience_prompts "").

Definition teacher_system_message : string :=
  "You are a skilled teacher who explains complex topics clearly.".

Definition explain_prompt (text audience : string) : string :=
  audience_prefix audience ++ nl ++ nl ++ text.

Definition explain_text (w : World) (text audience : string) (kw : kwargs)
  : M pyval :=
  let system_message := teacher_system_message in
  let prompt := explain_prompt text audience in
  generate_ai_response w prompt (Some system_message)
    (kw_temperature kw) (kw_max_tokens kw)
    (kw_api_key kw) (kw_endpoint kw) (kw_deployment_name kw).

(** The instruction line of each audience: three audiences, and the
    general line for any other. *)
Definition explanation_line (audience : string) : string :=
  if String.eqb audience "technical" then
    "Provide a technical explanation of the following:"
  else if String.eqb audience "beginner" then
    "Explain the following as if teaching a complete beginner:"
  else
    "Explain the following in simple, everyday language:".

(** The detail that a failure of [generate_ai_response] reports for an
    exception: its [message] attribute when it has one, else the
    [message] of its [body] when that is an object holding one, else
    its text. *)
Definition preferred_message (w : World) (e : exn) : string :=
  match exn_message e with
  | Some m => py_str w m
  | None =>
      match exn_body e with
      | Some (PDict d) =>
          match lookup "message" d with
          | Some m => py_str w m
          | None => exn_str e
          end
      | _ => exn_str e
      end
  end.

(** The usage block of a result. *)
Definition usage_of (u : usage) : pyval :=
  PDict [("prompt_tokens", PInt (prompt_tokens u));
         ("completion_tokens", PInt (completion_tokens u));
         ("total_tokens", PInt (total_tokens u))].

(** The envelope of a successful completion. *)
Definition generate_success (prompt : string) (content : option string)
    (u : usage) (model : string) : pyval :=
  PDict [("success", PBool true);
         ("prompt", PStr prompt);
         ("response", of_opt content);
         ("usage", usage_of u);
         ("model", PStr model);
         ("error", PNone)].

(** An exception of the chat SDK with a [message] and a [body]. *)
Definition rate_limit_error : exn :=
  mkExn (OtherException "RateLimitError")
    "Error code: 429 - {'error': {'message': 'Too many requests'}}"
    (Some (PStr "Too many requests"))
    (Some (PDict [("message", PStr "Rate limit reached");
                  ("code", PStr "429")])).

(** * Further descriptions: document_processor.py *)

(** The envelopes of the three extractors. *)
Definition txt_success (text : string) : pyval :=
  PDict [("success", PBool true);
         ("text", PStr text);
         ("file_type", PStr "txt");
         ("error", PNone)].

Definition docx_success (paragraphs : list string) : pyval :=
  PDict [("success", PBool true);
         ("text", PStr (join (nl ++ nl) paragraphs));
         ("paragraph_count", PInt (Z.of_nat (List.length paragraphs)));
         ("file_type", PStr "docx");
         ("error", PNone)].

Definition extraction_failure (error : string) : pyval :=
  PDict [("success", PBool false);
         ("text", PNone);
         ("error", PStr error)].

(** The characters of a string are all ASCII. *)
Fixpoint ascii_only (s : string) : bool :=
  match s with
  | EmptyString => true
  | String a r => (Nat.ltb (nat_of_ascii a) 128 && ascii_only r)%bool
  end.

(** A PDF whose third page cannot be read. *)
Definition damaged_pdf : World :=
  with_file "/tmp/damaged.pdf"
    [inr (Some "alpha"); inr (Some "beta");
     inl (builtin_error "PDFSyntaxError" "unexpected end of stream")]
    "" offline.

(** A file system that holds a Word document with the given paragraphs
    at [path]. *)
Definition with_docx (path : string) (paragraphs : list string) (w : World)
  : World :=
  mkWorld (getenv w) (uuid4 w) (requests_post w) (requests_get w)
    (client_init w) (chat_create w) (py_repr w)
    (fun _ p => String.eqb p path) (splitext w) (pdf_pages w)
    (fun t p => if String.eqb p path then inr paragraphs
                else docx_paragraphs w t p)
    (read_text w).

Definition letter_docx : World :=
  with_docx "/tmp/letter.docx" ["Dear reader,"; "   "; ""; "Yours."] offline.

(** A plain text file, and a PDF whose name is in capitals. *)
Definition readme_world : World :=
  with_file "/tmp/readme.txt" [] "hello, world" offline.

Definition capitals_world : World :=
  with_file "/tmp/REPORT.PDF" [inr (Some "alpha")] "" offline.

(** * Further descriptions: main.py *)

(** The envelope of the pipeline: the input, the target, the raw result
    of each stage that ran, and what the outcome adds. *)
Definition pipeline_envelope (input_text target_language : string)
    (stages outcome : dict) : pyval :=
  PDict ([("input", PStr input_text);
          ("target_language", PStr target_language);
          ("stages", PDict stages)] ++ outcome)%list.

(** A machine on which the summary succeeds and the translator is not
    configured. *)
Definition no_translator_world : World := chat_world (inr short_summary).

(** A machine on which the chat provider answers with no content. *)
Definition no_content_world : World :=
  chat_world (inr (mkCompletion [None] (Some (mkUsage 40 0 40)))).

(** * app.py *)

Definition ALLOWED_EXTENSIONS : list string := ["pdf"; "docx"; "txt"].

(** [c in s], for a character [c] *)
Fixpoint contains_char (c : ascii) (s : string) : bool :=
  match s with
  | EmptyString => false
  | String a r => (Ascii.eqb a c || contains_char c r)%bool
  end.

(** [s.rsplit(c, 1)[1]]: what follows the last [c] of [s]; nothing when
    [s] has no [c] (the list that [rsplit] returns then has one
    element). *)
Fixpoint after_last (c : ascii) (s : string) : option string :=
  match s with
  | EmptyString => None
  | String a r =>
      match after_last c r with
      | Some x => Some x
      | None => if Ascii.eqb a c then Some r else None
      end
  end.

Definition allowed_file (filename : string) : bool :=
  (contains_char "." filename &&
   match after_last "." filename with
   | Some ext => existsb (String.eqb (lower ext)) ALLOWED_EXTENSIONS
   | None => false
   end)%bool.

(** [v.items()] *)
Definition py_items (v : pyval) : M dict :=
  match v with
  | PDict d => ret d
  | _ => raise (builtin_error "AttributeError"
                  "object has no attribute 'items'")
  end.

(** The loop [for code, info in result["languages"].items()] of
    [list_languages], with the dictionary [languages] that it fills. *)
Fixpoint simplify_languages (items languages : dict) : M dict :=
  match items with
  | [] => ret languages
  | (code, info) :: rest =>
      name <- method_get info "name" (PStr code) ;;
      simplify_languages rest (setitem code name languages)
  end.

(** The handler of [GET /languages]: the JSON document that it answers
    with, and the status. *)
Definition list_languages (w : World) : M (pyval * Z) :=
  result <- get_supported_languages w ;;
  ok <- getitem result "success" ;;
  if truthy ok then
    all <- getitem result "languages" ;;
    items <- py_items all ;;
    languages <- simplify_languages items [] ;;
    ret (PDict [("success", PBool true);
                ("languages", PDict languages);
                ("count", PInt (Z.of_nat (List.length languages)))],
         200)
  else
    error <- getitem result "error" ;;
    ret (PDict [("success", PBool false); ("error", error)], 500).

(** The display name of a language: the [name] of its entry, and the
    code itself when the entry has none. *)
Definition language_name (entry : string * pyval) : string * pyval :=
  (fst entry,
   match snd entry with
   | PDict info =>
       match lookup "name" info with
       | Some name => name
       | None => PStr (fst entry)
       end
   | _ => PNone
   end).

Definition is_object (v : pyval) : bool :=
  match v with PDict _ => true | _ => false end.

(** A provider that lists two languages, one of them without a name. *)
Definition two_languages_world : World :=
  with_get
    (inr (ok_response 200
            (PDict [("translation",
                     PDict [("en", PDict [("name", PStr "English");
                                          ("dir", PStr "ltr")]);
                            ("tlh", PDict [("dir", PStr "ltr")])])])))
    offline.

(** * Sanity checks of the embedding on concrete inputs *)

Example splitext_report : posix_splitext "/tmp/report.PDF" = ("/tmp/report", ".PDF").
Proof. reflexivity. Qed.

Example splitext_hidden : posix_splitext "/tmp/.bashrc" = ("/tmp/.bashrc", "").
Proof. reflexivity. Qed.

Example rstrip_endpoint :
  rstrip "/" "https://api.cognitive.microsofttranslator.com//"
  = "https://api.cognitive.microsofttranslator.com".
Proof. reflexivity. Qed.

Example resolve_upper_extension :
  resolve_type offline "/tmp/report.PDF" None = "pdf".
Proof. reflexivity. Qed.

Example translate_hello :
  fst (translate_text
         (with_post (inr (ok_response 200
            (PList [PDict [("translations",
                            PList [PDict [("text", PStr "namaste")]])]])))
            offline)
         (PStr "Hello") "en" "hi" (Some "key") None None [])
  = Returns (PDict [("success", PBool true);
                    ("original_text", PStr "Hello");
                    ("translated_text", PStr "namaste");
                    ("source_language", PStr "en");
                    ("target_language", PStr "hi");
                    ("detected_language", PNone);
                    ("error", PNone)]).
Proof. reflexivity. Qed.

Example translate_offline :
  fst (translate_text offline (PStr "Hello") "en" "hi" (Some "key") None None [])
  = Returns (translate_failure "Request failed: Connection refused"
               (PStr "Hello") "en" "hi").
Proof. reflexivity. Qed.

(** * Reasoning about computations in [M] *)

Lemma new_events_app {A} (m : M A) (t evs : trace) :
  snd (m t) = (t ++ evs)%list -> new_events m t = evs.
Proof.
  intros H. unfold new_events. rewrite H. clear H.
  induction t as [|e t IH]; simpl; auto.
Qed.

Lemma bind_returns {A B} (m : M A) (k : A -> M B) t b t' :
  bind m k t = (Returns b, t') ->
  exists a t1, m t = (Returns a, t1) /\ k a t1 = (Returns b, t').
Proof.
  unfold bind. destruct (m t) as [[a|e] t1]; intros H.
  - exists a, t1. split; [reflexivity | exact H].
  - discriminate H.
Qed.

Lemma try_except_returns {A} (m : M A) (h : exn -> M A) t a t' :
  try_except m h t = (Returns a, t') ->
  m t = (Returns a, t') \/
  exists e t1, m t = (Raises e, t1) /\ h e t1 = (Returns a, t').
Proof.
  unfold try_except. destruct (m t) as [[x|e] t1]; intros H.
  - left. exact H.
  - right. exists e, t1. split; [reflexivity | exact H].
Qed.

Lemma ret_returns {A} (a b : A) t t' :
  ret a t = (Returns b, t') -> a = b /\ t = t'.
Proof. unfold ret. intros H. injection H as -> ->. split; reflexivity. Qed.

Lemma append_empty (s : string) : s ++ "" = s.
Proof. induction s as [|a s IH]; simpl; [reflexivity | now rewrite IH]. Qed.

Lemma pure_ret {A} (a : A) : pure (ret a).
Proof. intros t. reflexivity. Qed.

Lemma pure_raise {A} (e : exn) : pure (@raise A e).
Proof. intros t. reflexivity. Qed.

Lemma pure_bind {A B} (m : M A) (k : A -> M B) :
  pure m -> (forall a, pure (k a)) -> pure (bind m k).
Proof.
  intros Hm Hk t. unfold bind. specialize (Hm t).
  destruct (m t) as [[a|e] t1]; simpl in Hm; subst t1.
  - apply Hk.
  - reflexivity.
Qed.

Lemma pure_try_except {A} (m : M A) (h : exn -> M A) :
  pure m -> (forall e, pure (h e)) -> pure (try_except m h).
Proof.
  intros Hm Hh t. unfold try_except. specialize (Hm t).
  destruct (m t) as [[a|e] t1]; simpl in Hm; subst t1.
  - reflexivity.
  - apply Hh.
Qed.

Lemma pure_lift {A} (r : exn + A) : pure (lift r).
Proof. destruct r; [apply pure_raise | apply pure_ret]. Qed.

Lemma pure_if {A} (b : bool) (m1 m2 : M A) :
  pure m1 -> pure m2 -> pure (if b then m1 else m2).
Proof. destruct b; auto. Qed.

Create HintDb pure.
#[local] Hint Resolve pure_ret pure_raise pure_lift : pure.
#[local] Hint Extern 2 (pure (bind _ _)) => apply pure_bind; [|intro] : pure.
#[local] Hint Extern 2 (pure (try_except _ _)) =>
  apply pure_try_except; [|intro] : pure.
#[local] Hint Extern 2 (pure (if _ then _ else _)) => apply pure_if : pure.

Lemma pure_py_len v : pure (py_len v).
Proof. destruct v; simpl; auto with pure. Qed.

Lemma pure_getitem0 v : pure (getitem0 v).
Proof.
  destruct v as [| | |s|l|d]; simpl; auto with pure.
  - destruct s; auto with pure.
  - destruct l; auto with pure.
Qed.

Lemma pure_getitem v k : pure (getitem v k).
Proof.
  destruct v; simpl; auto with pure.
  destruct (lookup k d); auto with pure.
Qed.

Lemma pure_method_get v k d : pure (method_get v k d).
Proof. destruct v; simpl; auto with pure. Qed.

Lemma pure_py_in k v : pure (py_in k v).
Proof. destruct v; simpl; auto with pure. Qed.

Lemma pure_response_json r : pure (response_json r).
Proof. unfold response_json. destruct (resp_json r); auto with pure. Qed.

Lemma pure_raise_for_status r : pure (raise_for_status r).
Proof.
  unfold raise_for_status.
  repeat match goal with |- context [if ?b then _ else _] => destruct b end;
    auto with pure.
Qed.

#[local] Hint Resolve pure_py_len pure_getitem0 pure_getitem pure_method_get
  pure_py_in pure_response_json pure_raise_for_status : pure.

Lemma pure_unwrap_translation text s tg result :
  pure (unwrap_translation text s tg result).
Proof. unfold unwrap_translation. auto 12 with pure. Qed.

Lemma pure_http_error_message w r : pure (http_error_message w r).
Proof. unfold http_error_message. auto 12 with pure. Qed.

Section TranslatorResults.

Variable w : World.
Variables (text : pyval) (source_lang target_lang : string).

(** The handler of an HTTP error computes [http_error_text]. *)
Lemma http_error_message_spec (r : response) (t : trace) :
  http_error_message w r t = (Returns (http_error_text w r), t).
Proof.
  unfold http_error_message, http_error_text, provider_message,
    try_except, bind, response_json.
  destruct (resp_json r) as [de|body]; simpl.
  - now rewrite append_empty.
  - destruct body as [| | |s|l|d]; simpl;
      try (now rewrite append_empty).
    + destruct (substring_of "error" s); simpl; now rewrite append_empty.
    + destruct (existsb (pyval_is_str "error") l); simpl;
        now rewrite append_empty.
    + unfold has_key. destruct (lookup "error" d) as [v|] eqn:E; simpl.
      * destruct v; simpl; try (now rewrite append_empty).
        reflexivity.
      * now rewrite append_empty.
Qed.

(** What the parsed body is turned into, when no exception is raised. *)
Lemma unwrap_translation_returns (body r : pyval) (t t' : trace) :
  unwrap_translation text source_lang target_lang body t = (Returns r, t') ->
  (truthy body = false /\
   r = translate_failure empty_response_error text source_lang target_lang)
  \/
  (exists v detected,
      first_candidate_text body = Some v /\
      r = PDict [("success", PBool true);
                 ("original_text", text);
                 ("translated_text", v);
                 ("source_language", PStr source_lang);
                 ("target_language", PStr target_lang);
                 ("detected_language", detected);
                 ("error", PNone)]).
Proof.
  unfold unwrap_translation. intros H.
  destruct (truthy body) eqn:Tb.
  - right.
    destruct body as [|b|z|s|l|d]; simpl in Tb; try discriminate.
    + (* a string: its first character is not subscriptable by a key *)
      destruct s as [|a s]; [discriminate|]. discriminate.
    + destruct l as [|x l]; [discriminate|].
      cbn [bind py_len ret Nat.ltb Nat.leb List.length getitem0] in H.
      destruct x as [| | | | |tr]; try discriminate.
      cbn [bind getitem] in H.
      destruct (lookup "translations" tr) as [trs|] eqn:E1; [|discriminate].
      cbn [bind ret] in H.
      destruct trs as [| | |s'|l'|d']; try discriminate.
      * destruct s'; discriminate.
      * destruct l' as [|c l']; [discriminate|].
        cbn [bind getitem0 ret] in H.
        destruct c as [| | | | |cand]; try discriminate.
        cbn [bind getitem] in H.
        destruct (lookup "text" cand) as [v|] eqn:E2; [|discriminate].
        cbn [bind ret method_get] in H.
        destruct (match lookup "detectedLanguage" tr with
                  | Some x => x | None => PDict [] end) as [| | | | |dl];
          try discriminate.
        cbn [bind ret] in H. injection H as <- _.
        eexists _, _. split; [|reflexivity].
        simpl. rewrite E1. exact E2.
    + destruct d as [|p d]; discriminate.
  - left. split; [reflexivity|].
    cbn [bind ret] in H. now injection H as <- _.
Qed.

Lemma translate_request_trace (req : post_request) (t : trace) :
  snd (translate_request w req text source_lang target_lang t)
  = (t ++ [HttpPost req])%list.
Proof.
  unfold translate_request, post.
  cbv [bind history emit]. 
  destruct (requests_post w (seen t) req) as [e|resp]; simpl; [reflexivity|].
  change (snd ((raise_for_status resp ;;
        result <- response_json resp ;;
        unwrap_translation text source_lang target_lang result)
        (t ++ [HttpPost req])%list) = (t ++ [HttpPost req])%list).
  apply pure_bind; [auto with pure|intros _].
  apply pure_bind; [auto with pure|intros body].
  apply pure_unwrap_translation.
Qed.

Lemma raise_for_status_passes (resp : response) (t : trace) :
  is_error_status resp = false -> raise_for_status resp t = (Returns tt, t).
Proof.
  unfold is_error_status, raise_for_status. intros H.
  destruct (400 <=? status_code resp) eqn:E1; simpl in *.
  - rewrite H.
    destruct (status_code resp <? 500) eqn:E2; [lia|].
    destruct (500 <=? status_code resp); reflexivity.
  - destruct (500 <=? status_code resp) eqn:E3; [lia | reflexivity].
Qed.

Lemma raise_for_status_rejects (resp : response) (t : trace) :
  is_error_status resp = true ->
  exists msg,
    raise_for_status resp t = (Raises (mkExn (HTTPError resp) msg None None), t).
Proof.
  unfold is_error_status, raise_for_status. intros H.
  apply andb_true_iff in H as [H1 H2]. rewrite H1, H2. simpl.
  destruct (status_code resp <? 500) eqn:E2.
  - eexists. reflexivity.
  - assert (E3 : (500 <=? status_code resp) = true) by lia.
    rewrite E3. eexists. reflexivity.
Qed.

Lemma translate_request_eq (req : post_request) (t : trace) :
  translate_request w req text source_lang target_lang t
  = match requests_post w (seen t) req with
    | inl e => (Raises e, (t ++ [HttpPost req])%list)
    | inr resp =>
        (raise_for_status resp ;;
         result <- response_json resp ;;
         unwrap_translation text source_lang target_lang result)
          (t ++ [HttpPost req])%list
    end.
Proof.
  unfold translate_request, post. cbv [bind history emit].
  destruct (requests_post w (seen t) req); reflexivity.
Qed.

(** A rejected status is reported by the HTTP-error failure. *)
Lemma translate_rejected (req : post_request) (resp : response) (t : trace) :
  requests_post w (seen t) req = inr resp ->
  is_error_status resp = true ->
  try_except (translate_request w req text source_lang target_lang)
    (translate_handler w text source_lang target_lang) t
  = (Returns (translate_failure (http_error_text w resp)
                text source_lang target_lang),
     (t ++ [HttpPost req])%list).
Proof.
  intros Hp Hs. unfold try_except. rewrite translate_request_eq, Hp.
  destruct (raise_for_status_rejects resp (t ++ [HttpPost req])%list Hs)
    as [msg E].
  unfold bind at 1. rewrite E.
  unfold translate_handler. cbn [exn_cls].
  unfold bind. rewrite http_error_message_spec. reflexivity.
Qed.

(** A status that passes, with a body that parses, is unwrapped. *)
Lemma translate_accepted (req : post_request) (resp : response)
    (body : pyval) (t : trace) :
  requests_post w (seen t) req = inr resp ->
  is_error_status resp = false ->
  resp_json resp = inr body ->
  translate_request w req text source_lang target_lang t
  = unwrap_translation text source_lang target_lang body
      (t ++ [HttpPost req])%list.
Proof.
  intros Hp Hs Hj. rewrite translate_request_eq, Hp.
  unfold bind at 1. rewrite (raise_for_status_passes _ _ Hs).
  unfold bind at 1, response_json. rewrite Hj. reflexivity.
Qed.

(** Every result that the handler returns is a failure envelope. *)
Lemma translate_handler_returns (e : exn) (r : pyval) (t t' : trace) :
  translate_handler w text source_lang target_lang e t = (Returns r, t') ->
  exists m, r = translate_failure m text source_lang target_lang.
Proof.
  unfold translate_handler. destruct (exn_cls e) as [resp| |name]; intros H.
  - unfold bind in H. rewrite http_error_message_spec in H.
    injection H as <- _. eauto.
  - injection H as <- _. eauto.
  - discriminate H.
Qed.

(** Every result that the [try] block returns comes from a response of
    the provider whose body parsed. *)
Lemma translate_request_returns (req : post_request) (r : pyval)
    (t t' : trace) :
  translate_request w req text source_lang target_lang t = (Returns r, t') ->
  exists resp body,
    requests_post w (seen t) req = inr resp /\
    is_error_status resp = false /\
    resp_json resp = inr body /\
    unwrap_translation text source_lang target_lang body
      (t ++ [HttpPost req])%list = (Returns r, t').
Proof.
  rewrite translate_request_eq.
  destruct (requests_post w (seen t) req) as [e|resp] eqn:Hp;
    [discriminate|].
  intros H. exists resp.
  destruct (is_error_status resp) eqn:Hs.
  - destruct (raise_for_status_rejects resp (t ++ [HttpPost req])%list Hs)
      as [msg E].
    unfold bind at 1 in H. rewrite E in H. discriminate H.
  - unfold bind at 1 in H. rewrite (raise_for_status_passes _ _ Hs) in H.
    unfold bind at 1, response_json in H.
    destruct (resp_json resp) as [de|body] eqn:Hj; [discriminate H|].
    exists body. auto.
Qed.
End TranslatorResults.

(** * translator.py: properties *)

Section MissingKey.

Variable w : World.
Variables (text : pyval) (source_lang target_lang : string).
Variables (api_key region endpoint : option string).

(** C3. With no API key in the argument and none in the environment
    (each absent or empty), [translate_text] returns at once the failure
    whose error tells the caller to set [AZURE_TRANSLATOR_KEY] in the
    [.env] file; the only event of the call is its own entry, so no
    network call is made. *)
Theorem translate_text_missing_key (t : trace) :
  truthy_opt api_key = false ->
  truthy_opt (getenv w "AZURE_TRANSLATOR_KEY") = false ->
  let call :=
    translate_text w text source_lang target_lang api_key region endpoint in
  call t
  = (Returns (translate_failure
                "Missing AZURE_TRANSLATOR_KEY. Please set it in .env file."
                text source_lang target_lang),
     (t ++ [Enter_translate_text text source_lang target_lang])%list)
  /\ filter is_network (new_events call t) = [].
Proof.
  intros Harg Henv call.
  assert (E : call t
    = (Returns (translate_failure missing_translator_key
                  text source_lang target_lang),
       (t ++ [Enter_translate_text text source_lang target_lang])%list)).
  { unfold call, translate_text, bind, emit, or_opt.
    rewrite Harg, Henv. reflexivity. }
  split; [exact E|].
  rewrite (new_events_app call t
             [Enter_translate_text text source_lang target_lang]).
  - reflexivity.
  - rewrite E. reflexivity.
Qed.

End MissingKey.

Lemma translate_text_missing_key_witness :
  translate_text offline (PStr "Hello") "en" "hi" (Some "") None None []
  = (Returns (translate_failure
                "Missing AZURE_TRANSLATOR_KEY. Please set it in .env file."
                (PStr "Hello") "en" "hi"),
     [Enter_translate_text (PStr "Hello") "en" "hi"])
  /\ filter is_network
       (new_events
          (translate_text offline (PStr "Hello") "en" "hi" (Some "") None None)
          [])
     = [].
Proof.
  apply (translate_text_missing_key offline (PStr "Hello") "en" "hi"
           (Some "") None None []); reflexivity.
Defined.

Section TranslateText.

Variable w : World.
Variables (text : pyval) (source_lang target_lang : string).
Variables (api_key region endpoint : option string).

(** With a key configured, [translate_text] is its [try] statement run
    on the request built from the configuration. *)
Lemma translate_text_configured (t : trace) :
  truthy_opt (translator_key w api_key) = true ->
  translate_text w text source_lang target_lang api_key region endpoint t
  = try_except
      (translate_request w
         (translate_request_of w text source_lang target_lang
            api_key region endpoint t)
         text source_lang target_lang)
      (translate_handler w text source_lang target_lang)
      (t ++ [Enter_translate_text text source_lang target_lang])%list.
Proof.
  unfold translator_key. intros H.
  unfold translate_text. cbv [bind emit history]. rewrite H. reflexivity.
Qed.

Lemma translate_text_unconfigured (t : trace) :
  truthy_opt (translator_key w api_key) = false ->
  translate_text w text source_lang target_lang api_key region endpoint t
  = (Returns (translate_failure missing_translator_key
                text source_lang target_lang),
     (t ++ [Enter_translate_text text source_lang target_lang])%list).
Proof.
  unfold translator_key. intros H.
  unfold translate_text. cbv [bind emit history]. rewrite H. reflexivity.
Qed.

(** Whenever [translate_text] returns, its result is one of two
    envelopes.  Either [success] is false, [error] is a message and
    [translated_text] is [None]; or [success] is true, [error] is
    [None], and [translated_text] is the [text] of the first translation
    candidate in the body that the provider answered with. *)
Lemma translate_text_envelope (t t' : trace) (r : pyval) :
  translate_text w text source_lang target_lang api_key region endpoint t
  = (Returns r, t') ->
  (field "success" r = Some (PBool false) /\
   (exists m, field "error" r = Some (PStr m)) /\
   field "translated_text" r = Some PNone)
  \/
  (field "success" r = Some (PBool true) /\
   field "error" r = Some PNone /\
   exists resp body v,
     requests_post w (seen (t ++ [Enter_translate_text text source_lang target_lang])%list)
       (translate_request_of w text source_lang target_lang
          api_key region endpoint t) = inr resp /\
     resp_json resp = inr body /\
     first_candidate_text body = Some v /\
     field "translated_text" r = Some v).
Proof.
  intros H.
  destruct (truthy_opt (translator_key w api_key)) eqn:K.
  - rewrite (translate_text_configured t K) in H.
    apply try_except_returns in H as [H | (e & t1 & _ & H)].
    + apply translate_request_returns in H
        as (resp & body & Hp & _ & Hj & H).
      apply unwrap_translation_returns in H
        as [[_ ->] | (v & detected & Hv & ->)].
      * left. simpl. eauto.
      * right. simpl. repeat split. exists resp, body, v. auto.
    + apply translate_handler_returns in H as [m ->].
      left. simpl. eauto.
  - rewrite (translate_text_unconfigured t K) in H.
    injection H as <- _. left. simpl. eauto.
Qed.

(** C1.  With a provider that keeps to its documented reply, every
    result that [translate_text] returns has [success] true or false and
    populates exactly one of [translated_text] and [error]: when
    [success] is true, [translated_text] is not [None] and [error] is
    [None]; when [success] is false, [error] is a message and
    [translated_text] is [None]. *)
Theorem translate_text_populates_exactly_one (t t' : trace) (r : pyval) :
  provider_contract w ->
  translate_text w text source_lang target_lang api_key region endpoint t
  = (Returns r, t') ->
  (field "success" r = Some (PBool true)
   \/ field "success" r = Some (PBool false))
  /\ populates_exactly_one r.
Proof.
  intros Hcontract H.
  apply translate_text_envelope in H
    as [(Hs & [m Hm] & Ht) | (Hs & He & resp & body & v & Hp & Hj & Hv & Ht)].
  - split; [now right|]. split; intros Hs'.
    + rewrite Hs in Hs'. discriminate Hs'.
    + split; [now exists m | exact Ht].
  - destruct (Hcontract _ _ _ _ _ Hp Hj Hv) as [translated ->].
    split; [now left|]. split; intros Hs'.
    + split; [|exact He]. exists (PStr translated). split; [exact Ht|].
      discriminate.
    + rewrite Hs in Hs'. discriminate Hs'.
Qed.

(** C8, amended.  With a key configured and a response from the
    provider: a status that [raise_for_status] passes (every 2xx is one)
    with an empty array for a body gives the failure "Empty response
    from Translator API"; a status that it rejects (400 to 599) gives
    the failure "HTTP Error: <status>", followed by " - <message>" when
    the body is an object with an object under "error"; and the two
    error texts differ. *)
Theorem translate_text_empty_vs_http_error (t : trace) (resp : response) :
  truthy_opt (translator_key w api_key) = true ->
  let req := translate_request_of w text source_lang target_lang
               api_key region endpoint t in
  let call := translate_text w text source_lang target_lang
                api_key region endpoint in
  requests_post w (seen (t ++ [Enter_translate_text text source_lang target_lang])%list) req = inr resp ->
  (is_2xx resp = true -> is_error_status resp = false)
  /\
  (is_error_status resp = false ->
   resp_json resp = inr (PList []) ->
   call t = (Returns (translate_failure "Empty response from Translator API"
                        text source_lang target_lang),
             (t ++ [Enter_translate_text text source_lang target_lang; HttpPost req])%list))
  /\
  (is_error_status resp = true ->
   call t = (Returns (translate_failure (http_error_text w resp)
                        text source_lang target_lang),
             (t ++ [Enter_translate_text text source_lang target_lang; HttpPost req])%list))
  /\
  http_error_text w resp <> "Empty response from Translator API".
Proof.
  intros K req call Hp. unfold call.
  rewrite (translate_text_configured t K). fold req.
  repeat split.
  - unfold is_2xx, is_error_status. lia.
  - intros Hs Hj. unfold try_except.
    rewrite (translate_accepted w text source_lang target_lang
               req resp (PList []) _ Hp Hs Hj).
    simpl. now rewrite <- app_assoc.
  - intros Hs.
    rewrite (translate_rejected w text source_lang target_lang
               req resp _ Hp Hs).
    now rewrite <- app_assoc.
  - unfold http_error_text. simpl. discriminate.
Qed.

End TranslateText.

Section SupportedLanguages.

Variable w : World.

(** C9, amended.  [get_supported_languages] sends one GET, of the
    languages URL with a timeout and nothing else, and always returns:
    a network error, a status that [raise_for_status] rejects (400 to
    599), a body that is not JSON and a body that is not an object each
    give exactly [{success: False, error: message, languages: {}}]; an
    accepted status with an object for a body gives
    [{success: True, languages: body.get("translation", {})}]. *)
Theorem get_supported_languages_envelope (t : trace) :
  exists r,
    get_supported_languages w t
    = (Returns r, (t ++ [HttpGet (languages_url w) 30])%list)
    /\
    match requests_get w (seen t) (languages_url w) with
    | inl e => r = languages_failure (exn_str e)
    | inr resp =>
        if is_error_status resp then exists m, r = languages_failure m
        else
          match resp_json resp with
          | inl de => r = languages_failure (de_str de)
          | inr (PDict d) =>
              r = languages_success
                    (match lookup "translation" d with
                     | Some v => v
                     | None => PDict []
                     end)
          | inr _ => exists m, r = languages_failure m
          end
    end.
Proof.
  unfold get_supported_languages, get, try_except.
  cbv [bind history emit].
  destruct (requests_get w (seen t) (languages_url w)) as [e|resp];
    cbn [lift raise ret].
  - eexists. split; reflexivity.
  - destruct (is_error_status resp) eqn:Hs.
    + destruct (raise_for_status_rejects resp
                  (t ++ [HttpGet (languages_url w) 30])%list Hs) as [msg E].
      rewrite E. eexists. split; [reflexivity|]. eexists. reflexivity.
    + rewrite (raise_for_status_passes _ _ Hs).
      unfold response_json.
      destruct (resp_json resp) as [de|body]; cbn [raise ret].
      * eexists. split; [reflexivity|].
        unfold of_decode_error.
        destruct (de_request_exception de); reflexivity.
      * destruct body; cbn [method_get raise ret];
          eexists; (split; [reflexivity|]);
          try reflexivity; eexists; reflexivity.
Qed.

End SupportedLanguages.

Lemma translate_text_populates_exactly_one_witness :
  provider_contract hello_world
  /\ (field "success" hello_result = Some (PBool true)
      \/ field "success" hello_result = Some (PBool false))
  /\ populates_exactly_one hello_result.
Proof.
  assert (Hcontract : provider_contract hello_world).
  { intros history req resp body v Hp Hj Hv.
    injection Hp as <-. injection Hj as <-. injection Hv as <-.
    exists "namaste". reflexivity. }
  split; [exact Hcontract|].
  apply (translate_text_populates_exactly_one hello_world (PStr "Hello")
           "en" "hi" (Some "key") None None []
           [Enter_translate_text (PStr "Hello") "en" "hi";
            HttpPost (translate_request_of hello_world (PStr "Hello")
                        "en" "hi" (Some "key") None None [])]
           hello_result Hcontract).
  reflexivity.
Defined.

(** C8 as the specification states it fails: the failure produced for a
    response outside 2xx is not always distinct from the empty-response
    failure. *)
Lemma translate_text_empty_on_300 :
  ~ (forall (w : World) (text : pyval) (source_lang target_lang : string)
       (api_key region endpoint : option string) (t : trace)
       (resp : response) (r : pyval),
        truthy_opt (translator_key w api_key) = true ->
        requests_post w
          (seen (t ++ [Enter_translate_text text source_lang target_lang])%list)
          (translate_request_of w text source_lang target_lang
             api_key region endpoint t) = inr resp ->
        is_2xx resp = false ->
        fst (translate_text w text source_lang target_lang
               api_key region endpoint t) = Returns r ->
        r <> translate_failure "Empty response from Translator API"
               text source_lang target_lang).
Proof.
  intros H.
  apply (H multiple_choices_world (PStr "Hello") "en" "hi" (Some "key")
           None None [] (ok_response 300 (PList [])) _
           eq_refl eq_refl eq_refl eq_refl).
  reflexivity.
Qed.

Lemma translate_text_empty_vs_http_error_witness :
  let w := with_post (inr (ok_response 404
                (PDict [("error", PDict [("code", PInt 404000);
                                          ("message", PStr "Not found")])])))
             offline in
  let resp := ok_response 404
                (PDict [("error", PDict [("code", PInt 404000);
                                          ("message", PStr "Not found")])]) in
  let req := translate_request_of w (PStr "Hello") "en" "hi"
               (Some "key") None None [] in
  let call := translate_text w (PStr "Hello") "en" "hi" (Some "key") None None in
  http_error_text w resp = "HTTP Error: 404 - Not found"
  /\
  ((is_2xx resp = true -> is_error_status resp = false)
   /\
   (is_error_status resp = false ->
    resp_json resp = inr (PList []) ->
    call [] = (Returns (translate_failure "Empty response from Translator API"
                          (PStr "Hello") "en" "hi"),
               ([] ++ [Enter_translate_text (PStr "Hello") "en" "hi";
                       HttpPost req])%list))
   /\
   (is_error_status resp = true ->
    call [] = (Returns (translate_failure (http_error_text w resp)
                          (PStr "Hello") "en" "hi"),
               ([] ++ [Enter_translate_text (PStr "Hello") "en" "hi";
                       HttpPost req])%list))
   /\
   http_error_text w resp <> "Empty response from Translator API").
Proof.
  intros w resp req call. split; [reflexivity|].
  apply (translate_text_empty_vs_http_error w (PStr "Hello") "en" "hi"
           (Some "key") None None [] resp); reflexivity.
Defined.

(** C9 as the specification states it fails: a response outside 2xx is
    not always reported as a failure. *)
Lemma get_supported_languages_success_on_300 :
  ~ (forall (w : World) (t : trace) (resp : response),
        requests_get w (seen t) (languages_url w) = inr resp ->
        is_2xx resp = false ->
        exists m,
          fst (get_supported_languages w t) = Returns (languages_failure m)).
Proof.
  intros H.
  destruct (H languages_300_world [] _ eq_refl eq_refl) as [m Hm].
  discriminate Hm.
Qed.

(** * openai_client.py: properties *)

Lemma seen_app (t u : trace) : seen (t ++ u)%list = (seen t ++ seen u)%list.
Proof. apply filter_app. Qed.

Lemma seen_ghost (t : trace) (e : event) :
  is_ghost e = true -> seen (t ++ [e])%list = seen t.
Proof.
  intros H. rewrite seen_app. simpl. rewrite H. simpl. apply app_nil_r.
Qed.

Section OpenAIClient.

Variable w : World.
Variables (prompt : string) (system_message : option string).
Variables (temperature : Q) (max_tokens : Z).
Variables (api_key endpoint deployment_name : option string).

(** The code computes what the decision table says: it returns its
    result, after the entry event and the table's events. *)
Lemma generate_ai_response_eq (t : trace) :
  generate_ai_response w prompt system_message temperature max_tokens
    api_key endpoint deployment_name t
  = let (r, evs) :=
      generate_ai_response_table w prompt system_message temperature
        max_tokens api_key endpoint deployment_name t in
    (Returns r,
     (t ++ Enter_generate_ai_response prompt system_message :: evs)%list).
Proof.
  unfold generate_ai_response, generate_ai_response_table,
    openai_key, openai_endpoint.
  cbv [bind emit].
  destruct (truthy_opt (or_opt api_key (getenv w "AZURE_OPENAI_API_KEY")));
    [|reflexivity].
  destruct (truthy_opt (or_opt endpoint (getenv w "AZURE_OPENAI_ENDPOINT")));
    [|reflexivity].
  cbn [negb].
  unfold try_except, get_openai_client, create. cbv [bind emit history].
  rewrite seen_ghost by reflexivity.
  fold (openai_key w api_key) (openai_endpoint w endpoint)
    (openai_client_of w api_key endpoint).
  set (c := openai_client_of w api_key endpoint).
  destruct (client_init w (seen t) c) as [e|].
  - cbn [raise]. unfold ret, openai_failure. now rewrite <- app_assoc.
  - cbn [ret]. rewrite !seen_app. cbn [seen filter is_ghost negb].
    rewrite app_nil_r.
    fold (openai_deployment w deployment_name).
    set (req := mkChat _ _ _ _).
    destruct (chat_create w (seen t ++ [ClientInit c])%list c req) as [e|r];
      cbn [lift raise ret].
    + unfold openai_failure. now rewrite <- !app_assoc.
    + unfold first_content, usage_dict, completion_result, openai_failure.
      destruct (choices r) as [|x xs]; cbn [raise ret].
      * now rewrite <- !app_assoc.
      * destruct (completion_usage r); cbn [raise ret];
          now rewrite <- !app_assoc.
Qed.


(** The events of a call: its entry, and the events of the table. *)
Lemma generate_ai_response_events (t : trace) :
  new_events
    (generate_ai_response w prompt system_message temperature max_tokens
       api_key endpoint deployment_name) t
  = Enter_generate_ai_response prompt system_message
      :: snd (generate_ai_response_table w prompt system_message temperature
                max_tokens api_key endpoint deployment_name t).
Proof.
  apply new_events_app. rewrite generate_ai_response_eq.
  destruct (generate_ai_response_table _ _ _ _ _ _ _ _ _). reflexivity.
Qed.

(** C4.  A call of [generate_ai_response] with no API key (neither
    argument nor [AZURE_OPENAI_API_KEY]) returns at once the failure
    that names [AZURE_OPENAI_API_KEY]; with a key but no endpoint
    (neither argument nor [AZURE_OPENAI_ENDPOINT]) it returns at once the
    failure that names [AZURE_OPENAI_ENDPOINT].  In both cases the only
    event is the entry of the call: no client is built and no request
    is sent. *)
Theorem generate_ai_response_missing_config (t : trace) :
  let call :=
    generate_ai_response w prompt system_message temperature max_tokens
      api_key endpoint deployment_name in
  (truthy_opt (openai_key w api_key) = false ->
   call t
   = (Returns (generate_failure
                 "Missing AZURE_OPENAI_API_KEY. Please set it in .env file."
                 prompt),
      (t ++ [Enter_generate_ai_response prompt system_message])%list)
   /\ filter is_network (new_events call t) = [])
  /\
  (truthy_opt (openai_key w api_key) = true ->
   truthy_opt (openai_endpoint w endpoint) = false ->
   call t
   = (Returns (generate_failure
                 "Missing AZURE_OPENAI_ENDPOINT. Please set it in .env file."
                 prompt),
      (t ++ [Enter_generate_ai_response prompt system_message])%list)
   /\ filter is_network (new_events call t) = []).
Proof.
  intros call. unfold call.
  rewrite generate_ai_response_events, generate_ai_response_eq.
  unfold generate_ai_response_table.
  split.
  - intros K. rewrite K. split; reflexivity.
  - intros K E. rewrite K, E. split; reflexivity.
Qed.

End OpenAIClient.

Section EmptySystemMessage.

Variable w : World.
Variable prompt : string.
Variables (temperature : Q) (max_tokens : Z).
Variables (api_key endpoint deployment_name : option string).

(** C10.  An empty [system_message] is read as an absent one: the
    message list built for [""] is the default system message followed
    by the user prompt; a call with [""] returns what the call with
    [None] returns and interacts with the world in the same way; every
    chat request that it sends carries the default system message; and
    it does send one whenever the configuration is present and the
    client is constructed. *)
Theorem generate_ai_response_empty_system_message (t : trace) :
  let with_empty :=
    generate_ai_response w prompt (Some "") temperature max_tokens
      api_key endpoint deployment_name in
  let with_none :=
    generate_ai_response w prompt None temperature max_tokens
      api_key endpoint deployment_name in
  let default_messages :=
    [("system",
      "You are a helpful AI assistant. Provide clear, concise, and accurate responses.");
     ("user", prompt)] in
  build_messages prompt (Some "") = default_messages
  /\ fst (with_empty t) = fst (with_none t)
  /\ seen (snd (with_empty t)) = seen (snd (with_none t))
  /\ (forall c req,
        In (ChatCreate c req) (new_events with_empty t) ->
        chat_messages req = default_messages)
  /\ (truthy_opt (openai_key w api_key) = true ->
      truthy_opt (openai_endpoint w endpoint) = true ->
      client_init w (seen t) (openai_client_of w api_key endpoint) = None ->
      In (ChatCreate (openai_client_of w api_key endpoint)
            (mkChat (openai_deployment w deployment_name) default_messages
               temperature max_tokens))
         (new_events with_empty t)).
Proof.
  intros with_empty with_none default_messages.
  unfold with_empty, with_none.
  rewrite !generate_ai_response_events, !generate_ai_response_eq.
  change (generate_ai_response_table w prompt (Some "") temperature
            max_tokens api_key endpoint deployment_name t)
    with (generate_ai_response_table w prompt None temperature
            max_tokens api_key endpoint deployment_name t).
  destruct (generate_ai_response_table w prompt None temperature
              max_tokens api_key endpoint deployment_name t)
    as [r evs] eqn:T.
  cbn [fst snd].
  repeat split.
  - rewrite !seen_app. reflexivity.
  - intros c req [H|H]; [discriminate H|].
    revert T H. unfold generate_ai_response_table.
    destruct (truthy_opt (openai_key w api_key));
      [|intros [= _ <-] []].
    destruct (truthy_opt (openai_endpoint w endpoint));
      [|intros [= _ <-] []].
    cbn [negb].
    destruct (client_init w (seen t) (openai_client_of w api_key endpoint)).
    + intros [= _ <-] [H|[]]. discriminate H.
    + intros [= _ <-] [H|[H|[]]]; [discriminate H|].
      injection H as _ <-. reflexivity.
  - intros K E C. revert T. unfold generate_ai_response_table.
    rewrite K, E, C. cbn [negb]. intros [= _ <-].
    right. right. left. reflexivity.
Qed.

End EmptySystemMessage.

Lemma generate_ai_response_missing_config_witness :
  generate_ai_response offline "Hi" None (7 # 10) 1000 None None None []
  = (Returns (generate_failure
                "Missing AZURE_OPENAI_API_KEY. Please set it in .env file."
                "Hi"),
     [Enter_generate_ai_response "Hi" None])
  /\
  generate_ai_response offline "Hi" None (7 # 10) 1000
    (Some "key") None None []
  = (Returns (generate_failure
                "Missing AZURE_OPENAI_ENDPOINT. Please set it in .env file."
                "Hi"),
     [Enter_generate_ai_response "Hi" None]).
Proof.
  split.
  - apply (generate_ai_response_missing_config offline "Hi" None (7 # 10)
             1000 None None None []).
    reflexivity.
  - apply (generate_ai_response_missing_config offline "Hi" None (7 # 10)
             1000 (Some "key") None None []); reflexivity.
Defined.

Lemma generate_ai_response_empty_system_message_witness :
  In (ChatCreate (openai_client_of (chat_world (inr short_summary)) None None)
        (mkChat "gpt-4o-mini"
           [("system",
             "You are a helpful AI assistant. Provide clear, concise, and accurate responses.");
            ("user", "Hi")]
           (7 # 10) 1000))
     (new_events
        (generate_ai_response (chat_world (inr short_summary)) "Hi" (Some "")
           (7 # 10) 1000 None None None) []).
Proof.
  apply (generate_ai_response_empty_system_message
           (chat_world (inr short_summary)) "Hi" (7 # 10) 1000
           None None None []); reflexivity.
Defined.

Section Summarize.

Variable w : World.
Variables (text style : string) (kw : kwargs).

Lemma style_prefix_instruction_line : style_prefix style = instruction_line style.
Proof.
  unfold style_prefix, instruction_line, style_prompts, get_or.
  destruct (String.eqb_spec style "concise") as [->|_]; [reflexivity|].
  destruct (String.eqb style "detailed"); [reflexivity|].
  destruct (String.eqb style "bullet_points"); reflexivity.
Qed.

(** C7.  [summarize_text] sends to [generate_ai_response] the prompt
    made of the style's instruction line, a blank line and the text,
    with the fixed expert-summarizer system message and its keyword
    arguments unchanged; what it returns is what that call returns, so
    it fails only as [generate_ai_response] fails, and it never raises.
    The instruction line is the one of "concise", "detailed" or
    "bullet_points"; "concise" is the default style, and any other style
    gets the concise line. *)
Theorem summarize_text_delegates (t : trace) :
  summarize_text w text style kw t
  = generate_ai_response w
      (instruction_line style ++ nl ++ nl ++ text)
      (Some "You are an expert summarizer. Create clear and accurate summaries.")
      (kw_temperature kw) (kw_max_tokens kw)
      (kw_api_key kw) (kw_endpoint kw) (kw_deployment_name kw)
      (t ++ [Enter_summarize_text text style])%list
  /\ (exists r t', summarize_text w text style kw t = (Returns r, t'))
  /\ instruction_line default_style = instruction_line "concise"
  /\ (style <> "concise" -> style <> "detailed" -> style <> "bullet_points" ->
      instruction_line style = instruction_line "concise").
Proof.
  assert (E : summarize_text w text style kw t
    = generate_ai_response w
        (instruction_line style ++ nl ++ nl ++ text)
        (Some summarizer_system_message)
        (kw_temperature kw) (kw_max_tokens kw)
        (kw_api_key kw) (kw_endpoint kw) (kw_deployment_name kw)
        (t ++ [Enter_summarize_text text style])%list).
  { unfold summarize_text, summarize_prompt. cbv [bind emit].
    now rewrite style_prefix_instruction_line. }
  repeat split.
  - exact E.
  - rewrite E, generate_ai_response_eq.
    destruct (generate_ai_response_table _ _ _ _ _ _ _ _ _). eauto.
  - intros _ Hd Hb. unfold instruction_line.
    apply String.eqb_neq in Hd, Hb. now rewrite Hd, Hb.
Qed.

End Summarize.

Lemma summarize_text_delegates_witness :
  instruction_line "haiku"
  = "Provide a brief, concise summary of the following text in 2-3 sentences:".
Proof.
  apply (summarize_text_delegates offline "Some text." "haiku" no_kwargs []);
    discriminate.
Defined.

(** * document_processor.py: properties *)

Section PdfPages.

(** The loop appends, to what it has collected, the entries of the
    pages with text, numbered from where it starts. *)
Lemma pdf_loop_entries (pages : list (option string)) :
  forall (start : nat) (acc : list string) (t : trace),
    pdf_loop (map inr pages) start acc t
    = (Returns (acc ++ page_entries_from start pages)%list, t).
Proof.
  induction pages as [|page pages IH]; intros start acc t.
  - simpl. unfold ret, page_entries_from. simpl. now rewrite app_nil_r.
  - cbn [map pdf_loop lift]. unfold bind at 1. cbn [ret].
    rewrite IH. unfold page_entries_from, numbered_from.
    cbn [List.length seq combine filter].
    change (has_text (start, page)) with (truthy_opt page).
    destruct (truthy_opt page); cbn [map fst snd].
    + now rewrite <- app_assoc.
    + reflexivity.
Qed.

Lemma filter_has_text_all (pages : list (option string)) :
  forall start,
    forallb truthy_opt pages = true ->
    filter has_text (numbered_from start pages) = numbered_from start pages.
Proof.
  induction pages as [|page pages IH]; intros start H; [reflexivity|].
  simpl in H. apply andb_true_iff in H as [Hp Hr].
  unfold numbered_from in *. cbn [List.length seq combine filter].
  change (has_text (start, page)) with (truthy_opt page).
  rewrite Hp. f_equal. apply IH, Hr.
Qed.

Lemma page_entries_count (pages : list (option string)) :
  forall start,
    List.length (page_entries_from start pages)
    = List.length (filter truthy_opt pages).
Proof.
  unfold page_entries_from, numbered_from.
  induction pages as [|page pages IH]; intros start; [reflexivity|].
  cbn [List.length seq combine filter].
  change (has_text (start, page)) with (truthy_opt page).
  destruct (truthy_opt page); cbn [map List.length]; now rewrite IH.
Qed.

Lemma numbered_from_length (pages : list (option string)) (start : nat) :
  List.length (numbered_from start pages) = List.length pages.
Proof.
  unfold numbered_from. rewrite length_combine, length_seq. apply Nat.min_id.
Qed.

Variable w : World.
Variable file_path : string.

(** C6, amended.  For a PDF that opens and whose pages all extract,
    [extract_text_from_pdf] returns the entries of the pages that have
    text, joined by a blank line, each entry being the label
    "--- Page N ---" (N the page's number in the document, from 1), a
    line break and the page's text; pages without text contribute
    nothing.  [page_count] is the number of pages that have text.  When
    each of the N pages has text, there are N entries, labelled 1 to N in
    order, and [page_count] is N. *)
Theorem extract_text_from_pdf_pages (pages : list (option string))
    (t : trace) :
  pdf_pages w (seen t) file_path = inr (map inr pages) ->
  extract_text_from_pdf w file_path t
  = (Returns
       (PDict [("success", PBool true);
               ("text", PStr (join (nl ++ nl) (page_entries pages)));
               ("page_count",
                PInt (Z.of_nat (List.length (page_entries pages))));
               ("file_type", PStr "pdf");
               ("error", PNone)]),
     (t ++ [PdfOpen file_path])%list)
  /\ List.length (page_entries pages)
     = List.length (filter truthy_opt pages)
  /\ (forallb truthy_opt pages = true ->
      page_entries pages
      = map (fun p => "--- Page " ++ string_of_nat (fst p) ++ " ---"
                        ++ nl ++ opt_str (snd p))
          (combine (seq 1 (List.length pages)) pages)
      /\ List.length (page_entries pages) = List.length pages).
Proof.
  intros Hopen. repeat split.
  - unfold extract_text_from_pdf, try_except.
    cbv [bind history emit]. rewrite Hopen. cbn [lift ret].
    rewrite pdf_loop_entries. reflexivity.
  - apply page_entries_count.
  - unfold page_entries, page_entries_from.
    now rewrite filter_has_text_all.
  - unfold page_entries, page_entries_from.
    rewrite filter_has_text_all by assumption.
    rewrite length_map. apply numbered_from_length.
Qed.

End PdfPages.

Lemma extract_text_from_pdf_pages_witness :
  extract_text_from_pdf two_page_pdf "/tmp/report.pdf" []
  = (Returns
       (PDict [("success", PBool true);
               ("text",
                PStr ("--- Page 1 ---" ++ nl ++ "alpha" ++ nl ++ nl
                        ++ "--- Page 2 ---" ++ nl ++ "beta"));
               ("page_count", PInt 2);
               ("file_type", PStr "pdf");
               ("error", PNone)]),
     [PdfOpen "/tmp/report.pdf"]).
Proof.
  apply (extract_text_from_pdf_pages two_page_pdf "/tmp/report.pdf"
           [Some "alpha"; Some "beta"] []).
  reflexivity.
Defined.

Example blank_page_skipped :
  fst (extract_text_from_pdf blank_second_page "/tmp/scan.pdf" [])
  = Returns
      (PDict [("success", PBool true);
              ("text",
               PStr ("--- Page 1 ---" ++ nl ++ "alpha" ++ nl ++ nl
                       ++ "--- Page 3 ---" ++ nl ++ "gamma"));
              ("page_count", PInt 2);
              ("file_type", PStr "pdf");
              ("error", PNone)]).
Proof. reflexivity. Qed.

(** C6 as the specification states it fails: [page_count] is not the
    number of pages of the document. *)
Lemma extract_text_from_pdf_page_count :
  ~ (forall (w : World) (file_path : string) (pages : list (option string))
       (t : trace),
        pdf_pages w (seen t) file_path = inr (map inr pages) ->
        exists r t',
          extract_text_from_pdf w file_path t = (Returns r, t') /\
          field "text" r = Some (PStr (join (nl ++ nl) (page_entries pages))) /\
          field "page_count" r = Some (PInt (Z.of_nat (List.length pages)))).
Proof.
  intros H.
  destruct (H blank_second_page "/tmp/scan.pdf"
              [Some "alpha"; None; Some "gamma"] [] eq_refl)
    as (r & t' & Hr & _ & Hcount).
  injection Hr as <- _. discriminate Hcount.
Qed.

Section ExtractText.

Variable w : World.
Variables (file_path : string) (file_type : option string).

Lemma get_extractor_none (k : string) :
  ~ In k ["pdf"; "docx"; "txt"; "text"] ->
  get_extractor k extractors = None.
Proof.
  intros H. unfold extractors, get_extractor.
  repeat match goal with
  | |- context [String.eqb k ?s] =>
      destruct (String.eqb_spec k s) as [->|_];
      [exfalso; apply H; simpl; tauto|]
  end.
  reflexivity.
Qed.

(** A [try] whose handler returns a result always returns. *)
Lemma try_except_total {A} (m : M A) (h : exn -> A) (t : trace) :
  exists r t', try_except m (fun e => ret (h e)) t = (Returns r, t').
Proof. unfold try_except. destruct (m t) as [[r|e] t1]; unfold ret; eauto. Qed.

(** An extractor catches every exception of its parser. *)
Lemma extractor_returns (k : string) (f : World -> string -> M pyval)
    (t : trace) :
  get_extractor k extractors = Some f ->
  exists r t', f w file_path t = (Returns r, t').
Proof.
  unfold extractors, get_extractor.
  repeat match goal with
  | |- context [String.eqb k ?s] => destruct (String.eqb k s)
  end;
  intros [= <-];
  match goal with
  | |- exists r t', ?f w file_path t = _ =>
      unfold f; apply try_except_total
  end.
Qed.

(** C5, amended.  [extract_text] routes on the type hint when it is
    truthy and on the lower-cased extension otherwise.  A path that does
    not exist gives the "File not found" failure, and the only event is
    the existence test: nothing is parsed.  For a path that exists, a
    type outside pdf, docx, txt and text gives the failure whose message
    ends with "Supported: pdf, docx, txt", again with nothing parsed,
    and the type text is read as a plain text file.  In every case
    [extract_text] returns and does not raise. *)
Theorem extract_text_routing (t : trace) :
  let resolved := resolve_type w file_path file_type in
  let call := extract_text w file_path file_type in
  (truthy_opt file_type = true -> resolved = opt_str file_type)
  /\
  (truthy_opt file_type = false ->
   resolved = lstrip "." (lower (snd (splitext w file_path))))
  /\
  (path_exists w (seen t) file_path = false ->
   call t = (Returns (not_found file_path), (t ++ [PathExists file_path])%list)
   /\ filter is_parse (new_events call t) = [])
  /\
  (path_exists w (seen t) file_path = true ->
   ~ In resolved ["pdf"; "docx"; "txt"; "text"] ->
   call t = (Returns (unsupported resolved), (t ++ [PathExists file_path])%list)
   /\ filter is_parse (new_events call t) = [])
  /\
  (path_exists w (seen t) file_path = true ->
   resolved = "text" ->
   call t = extract_text_from_txt w file_path (t ++ [PathExists file_path])%list)
  /\
  (exists r t', call t = (Returns r, t')).
Proof.
  intros resolved call.
  assert (E : call t
    = if negb (path_exists w (seen t) file_path) then
        (Returns (not_found file_path), (t ++ [PathExists file_path])%list)
      else
        match get_extractor resolved extractors with
        | None =>
            (Returns (unsupported resolved),
             (t ++ [PathExists file_path])%list)
        | Some extractor =>
            extractor w file_path (t ++ [PathExists file_path])%list
        end).
  { unfold call, extract_text, exists_. cbv [bind history emit ret].
    destruct (path_exists w (seen t) file_path); [|reflexivity].
    cbn [negb]. fold resolved.
    destruct (get_extractor resolved extractors); reflexivity. }
  repeat split.
  - intros H. unfold resolved, resolve_type. now rewrite H.
  - intros H. unfold resolved, resolve_type. rewrite H. cbn [negb].
    now destruct (splitext w file_path).
  - rewrite E, H. reflexivity.
  - rewrite (new_events_app call t [PathExists file_path]); [reflexivity|].
    rewrite E, H. reflexivity.
  - rewrite E, H, (get_extractor_none _ H0). reflexivity.
  - rewrite (new_events_app call t [PathExists file_path]); [reflexivity|].
    rewrite E, H, (get_extractor_none _ H0). reflexivity.
  - intros Hx Ht. rewrite E, Hx, Ht. reflexivity.
  - rewrite E. destruct (negb (path_exists w (seen t) file_path)); [eauto|].
    destruct (get_extractor resolved extractors) as [f|] eqn:G; [|eauto].
    eapply extractor_returns, G.
Qed.

End ExtractText.

Lemma extract_text_routing_witness :
  extract_text offline "/tmp/missing.pdf" None []
  = (Returns (not_found "/tmp/missing.pdf"), [PathExists "/tmp/missing.pdf"])
  /\
  extract_text (with_file "/tmp/setup.exe" [] "MZ" offline) "/tmp/setup.exe"
    None []
  = (Returns (unsupported "exe"), [PathExists "/tmp/setup.exe"]).
Proof.
  split.
  - apply (extract_text_routing offline "/tmp/missing.pdf" None []).
    reflexivity.
  - apply (extract_text_routing (with_file "/tmp/setup.exe" [] "MZ" offline)
             "/tmp/setup.exe" None []).
    + reflexivity.
    + simpl. intros [H|[H|[H|[H|[]]]]]; discriminate H.
Defined.

(** C5 as the specification states it fails: the type text is outside
    pdf, docx and txt, and it is not refused. *)
Lemma extract_text_accepts_text :
  ~ (forall (w : World) (file_path : string) (file_type : option string)
       (t : trace),
        path_exists w (seen t) file_path = true ->
        ~ In (resolve_type w file_path file_type) ["pdf"; "docx"; "txt"] ->
        fst (extract_text w file_path file_type t)
        = Returns (unsupported (resolve_type w file_path file_type))).
Proof.
  intros H.
  specialize (H notes_world "/tmp/notes.text" None [] eq_refl).
  assert (Hout : ~ In (resolve_type notes_world "/tmp/notes.text" None)
                     ["pdf"; "docx"; "txt"]).
  { simpl. intros [E|[E|[E|[]]]]; discriminate E. }
  specialize (H Hout). discriminate H.
Qed.

Example notes_text_is_read :
  fst (extract_text notes_world "/tmp/notes.text" None [])
  = Returns (PDict [("success", PBool true);
                    ("text", PStr "hello");
                    ("file_type", PStr "txt");
                    ("error", PNone)]).
Proof. reflexivity. Qed.

(** * main.py: properties *)

Lemma pure_setitem_in outer inner v d : pure (setitem_in outer inner v d).
Proof.
  unfold setitem_in. apply pure_bind; [auto with pure|].
  intros sub. destruct sub; auto with pure.
Qed.

Lemma pure_preview v : pure (preview v).
Proof.
  unfold preview. apply pure_bind; [auto with pure|].
  intros n. destruct (Nat.ltb 200 n); [destruct v|]; auto with pure.
Qed.

#[local] Hint Resolve pure_setitem_in pure_preview : pure.

Lemma pure_finish_pipeline w input_text target_language result summary tr :
  pure (finish_pipeline w input_text target_language result summary tr).
Proof. unfold finish_pipeline. auto 12 with pure. Qed.

Lemma pure_translate_handler w text source_lang target_lang e :
  pure (translate_handler w text source_lang target_lang e).
Proof.
  unfold translate_handler. destruct (exn_cls e); auto with pure.
  apply pure_bind; [apply pure_http_error_message | auto with pure].
Qed.

Lemma no_translate_entry (e : event) (evs : list event) :
  filter is_translate_entry evs = [] ->
  In e evs -> is_translate_entry e = false.
Proof.
  intros Hf Hin. destruct (is_translate_entry e) eqn:E; [|reflexivity].
  assert (Hin' : In e (filter is_translate_entry evs))
    by (apply filter_In; auto).
  rewrite Hf in Hin'. destruct Hin'.
Qed.

(** The events of a call of [translate_text]: its entry, and at most
    the one request. *)
Lemma translate_text_trace (w : World) (text : pyval)
    (source_lang target_lang : string)
    (api_key region endpoint : option string) (t : trace) :
  exists evs,
    snd (translate_text w text source_lang target_lang
           api_key region endpoint t)
    = (t ++ Enter_translate_text text source_lang target_lang :: evs)%list
    /\ filter is_translate_entry evs = [].
Proof.
  destruct (truthy_opt (translator_key w api_key)) eqn:K.
  - rewrite (translate_text_configured _ _ _ _ _ _ _ t K).
    set (req := translate_request_of _ _ _ _ _ _ _ _).
    exists [HttpPost req]. split; [|reflexivity].
    unfold try_except.
    pose proof (translate_request_trace w text source_lang target_lang req
                  (t ++ [Enter_translate_text text source_lang target_lang])%list)
      as Ht.
    destruct (translate_request w req text source_lang target_lang _)
      as [[r|e] t1]; cbn [snd] in *; subst t1.
    + now rewrite <- app_assoc.
    + rewrite pure_translate_handler. now rewrite <- app_assoc.
  - rewrite (translate_text_unconfigured _ _ _ _ _ _ _ t K).
    exists []. split; reflexivity.
Qed.

Section Pipeline.

Variable w : World.
Variables (input_text target_language summary_style : string).

(** What the summary stage hands to the pipeline: a failure envelope or
    a success envelope, after events that hold no entry of
    [translate_text]. *)
Lemma summarize_text_result (t : trace) :
  exists r evs,
    summarize_text w input_text summary_style no_kwargs t
    = (Returns r, (t ++ evs)%list)
    /\ filter is_translate_entry evs = []
    /\ ((exists m,
           r = generate_failure m (summarize_prompt input_text summary_style))
        \/
        (exists content u model,
           r = PDict [("success", PBool true);
                      ("prompt",
                       PStr (summarize_prompt input_text summary_style));
                      ("response", of_opt content);
                      ("usage",
                       PDict [("prompt_tokens", PInt (prompt_tokens u));
                              ("completion_tokens",
                               PInt (completion_tokens u));
                              ("total_tokens", PInt (total_tokens u))]);
                      ("model", PStr model);
                      ("error", PNone)])).
Proof.
  unfold summarize_text. cbv [bind emit].
  rewrite generate_ai_response_eq.
  unfold generate_ai_response_table.
  set (prompt := summarize_prompt input_text summary_style).
  assert (shape : forall (r : pyval) (evs : list event) (P : pyval -> Prop),
             filter is_translate_entry evs = [] -> P r ->
             exists r' evs',
               (Returns r,
                ((t ++ [Enter_summarize_text input_text summary_style])
                   ++ Enter_generate_ai_response prompt
                        (Some summarizer_system_message) :: evs)%list)
               = (Returns r', (t ++ evs')%list)
               /\ filter is_translate_entry evs' = [] /\ P r').
  { intros r evs P Hevs Hr. eexists r, (_ :: _ :: evs).
    rewrite <- app_assoc. repeat split; assumption. }
  destruct (truthy_opt (openai_key w (kw_api_key no_kwargs)));
    [|apply shape; [reflexivity | left; eauto]].
  destruct (truthy_opt (openai_endpoint w (kw_endpoint no_kwargs)));
    [|apply shape; [reflexivity | left; eauto]].
  cbn [negb].
  destruct (client_init w _ _) as [e|];
    [apply shape; [reflexivity | left; unfold openai_failure; eauto]|].
  apply shape; [reflexivity|].
  destruct (chat_create w _ _ _) as [e|c];
    [left; unfold openai_failure; eauto|].
  unfold completion_result, openai_failure.
  destruct (choices c) as [|content rest]; [left; eauto|].
  destruct (completion_usage c) as [u|]; [right; eauto|left; eauto].
Qed.

(** Stage 2 enters [translate_text] at most once, with the summary,
    from "en", to the caller's target. *)
Lemma translate_stage_trace (result : dict) (prompt : string)
    (content : option string) (u : usage) (model : string) (t : trace) :
  exists evs,
    snd (translate_stage w input_text target_language result
           (summary_success prompt content u model) t)
    = (t ++ evs)%list
    /\ forall text source target,
         In (Enter_translate_text text source target) evs ->
         source = "en" /\ target = target_language /\ text = of_opt content.
Proof.
  unfold translate_stage, summary_success.
  cbn [getitem lookup String.eqb Ascii.eqb Bool.eqb].
  unfold bind at 1. cbn [ret].
  destruct content as [s|]; cbn [of_opt].
  2: { exists []. split; [now rewrite app_nil_r | intros ? ? ? []]. }
  assert (Hp : preview (PStr s) t = (Returns tt, t)).
  { unfold preview, bind. cbn [py_len ret].
    destruct (Nat.ltb 200 (String.length s)); reflexivity. }
  unfold bind at 1. rewrite Hp.
  unfold bind at 1. cbn [ret].
  unfold bind at 1. cbn [getitem lookup String.eqb Ascii.eqb Bool.eqb ret].
  unfold bind at 1.
  destruct (translate_text_trace w (PStr s) "en" target_language
              None None None t) as (evs & Ht & Hevs).
  exists (Enter_translate_text (PStr s) "en" target_language :: evs).
  split.
  - destruct (translate_text w (PStr s) "en" target_language None None None t)
      as [[tr|e] t2]; cbn [snd] in Ht; subst t2; [|reflexivity].
    apply pure_bind; [auto with pure|].
    intros result'. apply pure_finish_pipeline.
  - intros text source target [H|H].
    + injection H as <- <- <-. auto.
    + apply (no_translate_entry _ _ Hevs) in H. discriminate H.
Qed.

(** C2.  When the summary stage returns a failure, the pipeline returns
    at once: its result has [success] false and the error "OpenAI stage
    failed: " followed by the stage's error, and [translate_text] is not
    entered.  Whenever [translate_text] is entered during a run, the
    summary has succeeded, and the call translates the summary's
    response from "en" to the caller's target language. *)
Theorem process_and_translate_short_circuit (t t1 : trace)
    (summary_result : pyval) :
  let run :=
    process_and_translate w input_text target_language summary_style in
  summarize_text w input_text summary_style no_kwargs t
  = (Returns summary_result, t1) ->
  (field "success" summary_result = Some (PBool false) ->
   exists error r,
     field "error" summary_result = Some (PStr error) /\
     run t = (Returns r, t1) /\
     field "success" r = Some (PBool false) /\
     field "error" r = Some (PStr ("OpenAI stage failed: " ++ error)) /\
     filter is_translate_entry (new_events run t) = [])
  /\
  (forall text source target,
      In (Enter_translate_text text source target) (new_events run t) ->
      source = "en" /\ target = target_language /\
      field "success" summary_result = Some (PBool true) /\
      field "response" summary_result = Some text).
Proof.
  intros run Hs.
  destruct (summarize_text_result t) as (r & evs & E & Hevs & Hshape).
  rewrite E in Hs. injection Hs as <- <-.
  assert (Hrun : run t
    = (result <- setitem_in "stages" "openai_summary" r
                   [("input", PStr input_text);
                    ("target_language", PStr target_language);
                    ("stages", PDict [])] ;;
       ok <- getitem r "success" ;;
       if negb (truthy ok) then
         error <- getitem r "error" ;;
         ret (PDict
                (setitem "error"
                   (PStr ("OpenAI stage failed: " ++ py_str w error))
                   (setitem "success" (PBool false) result)))
       else translate_stage w input_text target_language result r)
        (t ++ evs)%list).
  { unfold run, process_and_translate. unfold bind at 1. now rewrite E. }
  destruct Hshape as [[m ->] | (content & u & model & ->)].
  - (* the summary failed *)
    assert (Hfail : run t
      = (Returns
           (PDict [("input", PStr input_text);
                   ("target_language", PStr target_language);
                   ("stages",
                    PDict [("openai_summary",
                            generate_failure m
                              (summarize_prompt input_text summary_style))]);
                   ("success", PBool false);
                   ("error", PStr ("OpenAI stage failed: " ++ m))]),
         (t ++ evs)%list)) by (rewrite Hrun; reflexivity).
    assert (Hnew : new_events run t = evs)
      by (apply new_events_app; now rewrite Hfail).
    split.
    + intros _. exists m. eexists.
      split; [reflexivity|]. split; [exact Hfail|].
      split; [reflexivity|]. split; [reflexivity|].
      now rewrite Hnew.
    + intros text source target Hin. rewrite Hnew in Hin.
      apply (no_translate_entry _ _ Hevs) in Hin. discriminate Hin.
  - (* the summary succeeded *)
    split; [intros H; discriminate H|].
    fold (summary_success (summarize_prompt input_text summary_style)
            content u model) in *.
    set (result := [("input", PStr input_text);
                    ("target_language", PStr target_language);
                    ("stages",
                     PDict [("openai_summary",
                             summary_success
                               (summarize_prompt input_text summary_style)
                               content u model)])]).
    assert (Hstage : run t
      = translate_stage w input_text target_language result
          (summary_success (summarize_prompt input_text summary_style)
             content u model) (t ++ evs)%list)
      by (rewrite Hrun; reflexivity).
    destruct (translate_stage_trace result
                (summarize_prompt input_text summary_style) content u model
                (t ++ evs)%list) as (evs2 & Ht & Hevs2).
    assert (Hnew : new_events run t = (evs ++ evs2)%list).
    { apply new_events_app. rewrite Hstage, Ht. now rewrite <- app_assoc. }
    intros text source target Hin. rewrite Hnew in Hin.
    apply in_app_or in Hin as [Hin|Hin].
    + apply (no_translate_entry _ _ Hevs) in Hin. discriminate Hin.
    + destruct (Hevs2 _ _ _ Hin) as (-> & -> & ->). auto.
Qed.

End Pipeline.

Lemma process_and_translate_short_circuit_witness :
  exists error r,
    field "error"
      (generate_failure missing_openai_key
         (summarize_prompt "Some text." "concise"))
    = Some (PStr error) /\
    process_and_translate offline "Some text." "hi" "concise" []
    = (Returns r,
       [Enter_summarize_text "Some text." "concise";
        Enter_generate_ai_response (summarize_prompt "Some text." "concise")
          (Some summarizer_system_message)]) /\
    field "success" r = Some (PBool false) /\
    field "error" r = Some (PStr ("OpenAI stage failed: " ++ error)) /\
    filter is_translate_entry
      (new_events (process_and_translate offline "Some text." "hi" "concise")
         [])
    = [].
Proof.
  destruct (process_and_translate_short_circuit offline "Some text." "hi"
              "concise" [] _ _ eq_refl) as [Hfail _].
  exact (Hfail eq_refl).
Defined.

Example pipeline_translates_the_summary :
  let run := process_and_translate pipeline_world "A long text." "hi" "concise" in
  field "success" (match fst (run []) with Returns r => r | Raises _ => PNone end)
  = Some (PBool true)
  /\ field "final_output"
       (match fst (run []) with Returns r => r | Raises _ => PNone end)
     = Some (PDict [("original_text", PStr "A long text.");
                    ("english_summary", PStr "A short summary.");
                    ("translated_summary", PStr "saransh");
                    ("target_language", PStr "hi")])
  /\ filter is_translate_entry (new_events run [])
     = [Enter_translate_text (PStr "A short summary.") "en" "hi"].
Proof. repeat split. Qed.

(** * translator.py: further properties *)

Lemma rstrip_append_char (c : ascii) (s : string) :
  rstrip c (s ++ String c EmptyString) = rstrip c s.
Proof.
  induction s as [|a s IH]; simpl.
  - now rewrite Ascii.eqb_refl.
  - now rewrite IH.
Qed.

Lemma repeat_char_snoc (c : ascii) (n : nat) :
  String c (repeat_char c n) = repeat_char c n ++ String c EmptyString.
Proof. induction n as [|n IH]; simpl; [reflexivity | now rewrite <- IH]. Qed.

Lemma append_assoc (a b c : string) : (a ++ b) ++ c = a ++ (b ++ c).
Proof. induction a as [|x a IH]; simpl; [reflexivity | now rewrite IH]. Qed.

Lemma rstrip_append_repeat (c : ascii) (n : nat) (s : string) :
  rstrip c (s ++ repeat_char c n) = rstrip c s.
Proof.
  induction n as [|n IH]; cbn [repeat_char].
  - now rewrite append_empty.
  - rewrite repeat_char_snoc, <- append_assoc, rstrip_append_char. exact IH.
Qed.

(** What [rstrip] returns does not end with the stripped character. *)
Lemma rstrip_stripped (c : ascii) (s : string) :
  ends_with_char c (rstrip c s) = false.
Proof.
  induction s as [|a s IH]; [reflexivity|].
  cbn [rstrip].
  destruct (Ascii.eqb a c) eqn:Ea; cbn [andb].
  - destruct (String.eqb_spec (rstrip c s) "") as [E|N]; [reflexivity|].
    cbn [ends_with_char]. destruct (rstrip c s); [now elim N | exact IH].
  - cbn [ends_with_char].
    destruct (rstrip c s) eqn:R; [exact Ea | exact IH].
Qed.

Section TranslateTextFurther.

Variable w : World.
Variables (text : pyval) (source_lang target_lang : string).
Variables (api_key region endpoint : option string).

(** Every result of [translate_text] is one of its two envelopes. *)
Lemma translate_text_shape (t t' : trace) (r : pyval) :
  translate_text w text source_lang target_lang api_key region endpoint t
  = (Returns r, t') ->
  (exists m, r = translate_failure m text source_lang target_lang)
  \/ (exists v d, r = translate_success text source_lang target_lang v d).
Proof.
  intros H.
  destruct (truthy_opt (translator_key w api_key)) eqn:K.
  - rewrite (translate_text_configured _ _ _ _ _ _ _ t K) in H.
    apply try_except_returns in H as [H | (e & t1 & _ & H)].
    + apply translate_request_returns in H as (resp & body & _ & _ & _ & H).
      apply unwrap_translation_returns in H
        as [[_ ->] | (v & detected & _ & ->)].
      * left. eexists. reflexivity.
      * right. exists v, detected. reflexivity.
    + apply translate_handler_returns in H as [m ->].
      left. eexists. reflexivity.
  - rewrite (translate_text_unconfigured _ _ _ _ _ _ _ t K) in H.
    injection H as <- _. left. eexists. reflexivity.
Qed.

(** X1.  Whatever the outcome, the envelope that [translate_text]
    returns repeats the caller's text and language codes under
    [original_text], [source_language] and [target_language]. *)
Theorem translate_text_echoes_request (t t' : trace) (r : pyval) :
  translate_text w text source_lang target_lang api_key region endpoint t
  = (Returns r, t') ->
  field "original_text" r = Some text
  /\ field "source_language" r = Some (PStr source_lang)
  /\ field "target_language" r = Some (PStr target_lang).
Proof.
  intros H.
  apply translate_text_shape in H as [[m ->] | (v & d & ->)];
    repeat split.
Qed.

(** The events of a configured call, however it ends. *)
Lemma translate_text_configured_trace (t : trace) :
  truthy_opt (translator_key w api_key) = true ->
  snd (translate_text w text source_lang target_lang
         api_key region endpoint t)
  = (t ++ [Enter_translate_text text source_lang target_lang;
           HttpPost (translate_request_of w text source_lang target_lang
                       api_key region endpoint t)])%list.
Proof.
  intros K. rewrite (translate_text_configured _ _ _ _ _ _ _ t K).
  set (req := translate_request_of _ _ _ _ _ _ _ _).
  unfold try_except.
  pose proof (translate_request_trace w text source_lang target_lang req
                (t ++ [Enter_translate_text text source_lang target_lang])%list)
    as Ht.
  destruct (translate_request w req text source_lang target_lang _)
    as [[r|e] t1]; cbn [snd] in *; subst t1.
  - now rewrite <- app_assoc.
  - rewrite pure_translate_handler. now rewrite <- app_assoc.
Qed.

(** X2.  A call of [translate_text] with a key sends exactly one
    request, whether it then returns a translation, returns a failure or
    raises: a POST to the endpoint without its trailing slashes followed
    by [/translate], with [api-version=3.0] and the two language codes
    as query parameters, the one-element body [[{"text": text}]], and a
    timeout of 30 seconds. *)
Theorem translate_text_sends_one_post (t : trace) :
  truthy_opt (translator_key w api_key) = true ->
  let req := translate_request_of w text source_lang target_lang
               api_key region endpoint t in
  filter is_network
    (new_events
       (translate_text w text source_lang target_lang api_key region endpoint)
       t)
  = [HttpPost req]
  /\ post_url req = rstrip "/" (translator_endpoint w endpoint) ++ "/translate"
  /\ ends_with_char "/" (rstrip "/" (translator_endpoint w endpoint)) = false
  /\ post_params req = [("api-version", "3.0");
                        ("from", source_lang);
                        ("to", target_lang)]
  /\ post_json req = PList [PDict [("text", text)]]
  /\ post_timeout req = 30.
Proof.
  intros K req.
  rewrite (new_events_app _ t _ (translate_text_configured_trace t K)).
  repeat split. apply rstrip_stripped.
Qed.

(** X3.  When the HTTP library raises a [RequestException] (timeout,
    connection failure), a configured call returns the failure
    "Request failed: " followed by the exception's text. *)
Theorem translate_text_transport_error (t : trace) (e : exn) :
  truthy_opt (translator_key w api_key) = true ->
  requests_post w
    (seen (t ++ [Enter_translate_text text source_lang target_lang])%list)
    (translate_request_of w text source_lang target_lang
       api_key region endpoint t) = inl e ->
  exn_cls e = RequestException ->
  fst (translate_text w text source_lang target_lang
         api_key region endpoint t)
  = Returns (translate_failure ("Request failed: " ++ exn_str e)
               text source_lang target_lang).
Proof.
  intros K Hp Hc. rewrite (translate_text_configured _ _ _ _ _ _ _ t K).
  unfold try_except. rewrite translate_request_eq, Hp.
  unfold translate_handler. rewrite Hc. reflexivity.
Qed.

(** X4.  No exception of the HTTP library leaves [translate_text]: an
    exception that it raises is neither an [HTTPError] nor any other
    [RequestException]. *)
Theorem translate_text_raises_no_request_exception (t t' : trace) (e : exn) :
  translate_text w text source_lang target_lang api_key region endpoint t
  = (Raises e, t') ->
  exists name, exn_cls e = OtherException name.
Proof.
  intros H.
  destruct (truthy_opt (translator_key w api_key)) eqn:K.
  - (* configured: the exception went through the handler, which returns
       for the HTTP library's exceptions and re-raises the others *)
    rewrite (translate_text_configured _ _ _ _ _ _ _ t K) in H.
    unfold try_except in H.
    destruct (translate_request w _ text source_lang target_lang _)
      as [[r|e0] t1]; [discriminate H|].
    unfold translate_handler in H.
    destruct (exn_cls e0) as [resp| |name] eqn:C.
    + unfold bind in H. rewrite http_error_message_spec in H. discriminate H.
    + discriminate H.
    + injection H as <- _. exists name. exact C.
  - (* not configured: the call returns *)
    rewrite (translate_text_unconfigured _ _ _ _ _ _ _ t K) in H.
    discriminate H.
Qed.

End TranslateTextFurther.

(** The request does not depend on the trailing slashes of the
    endpoint. *)
Lemma translate_request_of_slashes (w : World) (text : pyval)
    (source_lang target_lang : string) (api_key region : option string)
    (endpoint : string) (n : nat) (t : trace) :
  endpoint <> "" ->
  translate_request_of w text source_lang target_lang api_key region
    (Some (endpoint ++ repeat_char "/" n)) t
  = translate_request_of w text source_lang target_lang api_key region
      (Some endpoint) t.
Proof.
  intros Hne.
  unfold translate_request_of, translate_post, translator_endpoint, or_str.
  destruct (String.eqb_spec endpoint "") as [E|_]; [contradiction|].
  destruct (String.eqb_spec (endpoint ++ repeat_char "/" n) "") as [E|_].
  - destruct endpoint; [contradiction | discriminate E].
  - now rewrite rstrip_append_repeat.
Qed.

(** X5.  Trailing slashes of the endpoint do not matter: called with an
    endpoint followed by any number of slashes, [translate_text] does
    what it does with the endpoint alone, same result and same events;
    and when a key is configured, the one request of the call is posted
    to the endpoint without its trailing slashes followed by
    [/translate]. *)
Theorem translate_text_endpoint_slashes (w : World) (text : pyval)
    (source_lang target_lang : string) (api_key region : option string)
    (endpoint : string) (n : nat) (t : trace) :
  endpoint <> "" ->
  translate_text w text source_lang target_lang api_key region
    (Some (endpoint ++ repeat_char "/" n)) t
  = translate_text w text source_lang target_lang api_key region
      (Some endpoint) t
  /\
  (truthy_opt (translator_key w api_key) = true ->
   exists req,
     filter is_network
       (new_events
          (translate_text w text source_lang target_lang api_key region
             (Some (endpoint ++ repeat_char "/" n))) t)
     = [HttpPost req]
     /\ post_url req = rstrip "/" endpoint ++ "/translate").
Proof.
  intros Hne. split.
  - destruct (truthy_opt (translator_key w api_key)) eqn:K.
    + rewrite !(translate_text_configured _ _ _ _ _ _ _ t K).
      now rewrite (translate_request_of_slashes _ _ _ _ _ _ _ n t Hne).
    + now rewrite !(translate_text_unconfigured _ _ _ _ _ _ _ t K).
  - intros K.
    rewrite (new_events_app _ t _
               (translate_text_configured_trace w text source_lang target_lang
                  api_key region (Some (endpoint ++ repeat_char "/" n)) t K)).
    eexists. split; [reflexivity|].
    rewrite (translate_request_of_slashes _ _ _ _ _ _ _ n t Hne).
    unfold translate_request_of, translate_post, translator_endpoint, or_str.
    cbn [post_url].
    destruct (String.eqb_spec endpoint "") as [E|_]; [contradiction|].
    reflexivity.
Qed.

(** Unwrapping a truthy body without a first candidate text raises, at
    the access that fails. *)
Lemma unwrap_translation_malformed (text : pyval)
    (source_lang target_lang : string) (body : pyval) :
  truthy body = true ->
  first_candidate_text body = None ->
  forall t,
  exists e,
    unwrap_translation text source_lang target_lang body t = (Raises e, t)
    /\ (exn_cls e = OtherException "KeyError"
        \/ exn_cls e = OtherException "IndexError"
        \/ exn_cls e = OtherException "TypeError").
Proof.
  intros Htruthy Hnone t. unfold unwrap_translation. rewrite Htruthy.
  assert (raised : forall name msg,
             In name ["KeyError"; "IndexError"; "TypeError"] ->
             exists e,
               (Raises (builtin_error name msg), t) = (@Raises pyval e, t)
               /\ (exn_cls e = OtherException "KeyError"
                   \/ exn_cls e = OtherException "IndexError"
                   \/ exn_cls e = OtherException "TypeError")).
  { intros name msg Hin. eexists. split; [reflexivity|]. cbn.
    destruct Hin as [<-|[<-|[<-|[]]]]; auto. }
  destruct body as [|b|z|s|l|d]; cbn [truthy] in Htruthy;
    try discriminate Htruthy.
  - (* a boolean *) apply raised. cbn. auto.
  - (* a number *) apply raised. cbn. auto.
  - (* a string: its first character has no keys *)
    destruct s as [|a s]; [discriminate Htruthy|].
    apply raised. cbn. auto.
  - (* an array *)
    destruct l as [|entry l]; [discriminate Htruthy|].
    cbn [first_candidate_text] in Hnone.
    cbn [bind py_len ret List.length Nat.ltb Nat.leb getitem0].
    destruct entry as [| | | | |translation];
      try (apply raised; cbn; auto).
    cbn [bind getitem].
    destruct (lookup "translations" translation) as [translations|];
      [|apply raised; cbn; auto].
    cbn [bind ret].
    destruct translations as [| | |s'|l'|d'];
      try (apply raised; cbn; auto).
    + destruct s' as [|a s']; apply raised; cbn; auto.
    + destruct l' as [|candidate l']; [apply raised; cbn; auto|].
      cbn [bind getitem0 ret].
      destruct candidate as [| | | | |fields];
        try (apply raised; cbn; auto).
      cbn [bind getitem]. rewrite Hnone. apply raised. cbn. auto.
  - (* an object: it has no key 0 *)
    destruct d as [|p d]; [discriminate Htruthy|].
    apply raised. cbn. auto.
Qed.

Section TranslateTextBodies.

Variable w : World.
Variables (text : pyval) (source_lang target_lang : string).
Variables (api_key region endpoint : option string).
Variables (t : trace) (resp : response) (body : pyval).

Hypothesis configured : truthy_opt (translator_key w api_key) = true.
Hypothesis answered :
  requests_post w
    (seen (t ++ [Enter_translate_text text source_lang target_lang])%list)
    (translate_request_of w text source_lang target_lang
       api_key region endpoint t) = inr resp.
Hypothesis accepted : is_error_status resp = false.
Hypothesis parsed : resp_json resp = inr body.

Lemma translate_text_unwraps :
  translate_text w text source_lang target_lang api_key region endpoint t
  = try_except
      (fun t1 => unwrap_translation text source_lang target_lang body
                   (t1 ++ [HttpPost (translate_request_of w text source_lang
                                       target_lang api_key region endpoint t)])%list)
      (translate_handler w text source_lang target_lang)
      (t ++ [Enter_translate_text text source_lang target_lang])%list.
Proof.
  rewrite (translate_text_configured _ _ _ _ _ _ _ t configured).
  unfold try_except.
  now rewrite (translate_accepted w text source_lang target_lang
                 _ resp body _ answered accepted parsed).
Qed.

(** X6.  From an accepted response whose body is an array, whose first
    entry is an object with a [translations] array, whose first
    candidate is an object with a [text], [translate_text] returns the
    success envelope with that text; [detected_language] is the language
    under the entry's [detectedLanguage], and [None] when the provider
    sent none. *)
Theorem translate_text_success (translation : dict) (rest : list pyval)
    (v d : pyval) :
  body = PList (PDict translation :: rest) ->
  first_candidate_text body = Some v ->
  detected_language_of translation = Some d ->
  fst (translate_text w text source_lang target_lang
         api_key region endpoint t)
  = Returns (translate_success text source_lang target_lang v d).
Proof.
  intros Hb Hv Hd. rewrite translate_text_unwraps.
  rewrite Hb in *.
  unfold try_except, unwrap_translation.
  cbn [truthy py_len List.length bind ret Nat.ltb Nat.leb getitem0 getitem].
  cbn [first_candidate_text] in Hv.
  unfold detected_language_of in Hd.
  destruct (lookup "translations" translation) as [trs|]; [|discriminate Hv].
  destruct trs as [| | | |[|[| | | | |candidate] more]|]; try discriminate Hv.
  cbn [bind ret getitem0 getitem]. rewrite Hv.
  cbn [bind ret method_get].
  destruct (lookup "detectedLanguage" translation) as [dl|].
  - destruct dl as [| | | | |detected]; try discriminate Hd.
    injection Hd as <-. reflexivity.
  - injection Hd as <-. reflexivity.
Qed.

(** X7.  An accepted response whose body is truthy but does not have
    that shape (no first entry, no [translations], no candidate, no
    [text]) is not turned into a failure envelope: [translate_text]
    raises the [KeyError], [IndexError] or [TypeError] of the access
    that failed. *)
Theorem translate_text_malformed_body_raises :
  truthy body = true ->
  first_candidate_text body = None ->
  exists e,
    fst (translate_text w text source_lang target_lang
           api_key region endpoint t) = Raises e
    /\ (exn_cls e = OtherException "KeyError"
        \/ exn_cls e = OtherException "IndexError"
        \/ exn_cls e = OtherException "TypeError").
Proof.
  intros Htruthy Hnone.
  destruct (unwrap_translation_malformed text source_lang target_lang body
              Htruthy Hnone
              ((t ++ [Enter_translate_text text source_lang target_lang])
                 ++ [HttpPost (translate_request_of w text source_lang
                                 target_lang api_key region endpoint t)])%list)
    as (e & Hraise & Hcls).
  exists e. split; [|exact Hcls].
  rewrite translate_text_unwraps. unfold try_except. rewrite Hraise.
  unfold translate_handler.
  destruct Hcls as [C|[C|C]]; rewrite C; reflexivity.
Qed.

End TranslateTextBodies.

Lemma translate_text_echoes_request_witness :
  field "original_text" hello_result = Some (PStr "Hello")
  /\ field "source_language" hello_result = Some (PStr "en")
  /\ field "target_language" hello_result = Some (PStr "hi").
Proof.
  apply (translate_text_echoes_request hello_world (PStr "Hello") "en" "hi"
           (Some "key") None None []
           (snd (translate_text hello_world (PStr "Hello") "en" "hi"
                   (Some "key") None None []))).
  reflexivity.
Defined.

Lemma translate_text_sends_one_post_witness :
  filter is_network
    (new_events
       (translate_text hello_world (PStr "Hello") "en" "hi" (Some "key")
          None None) [])
  = [HttpPost
       (mkPost "https://api.cognitive.microsofttranslator.com/translate"
          [("api-version", "3.0"); ("from", "en"); ("to", "hi")]
          [("Ocp-Apim-Subscription-Key", "key");
           ("Ocp-Apim-Subscription-Region", "centralindia");
           ("Content-Type", "application/json");
           ("X-ClientTraceId", "00000000-0000-4000-8000-000000000000")]
          (PList [PDict [("text", PStr "Hello")]]) 30)].
Proof.
  apply (translate_text_sends_one_post hello_world (PStr "Hello") "en" "hi"
           (Some "key") None None []).
  reflexivity.
Defined.

Lemma translate_text_transport_error_witness :
  fst (translate_text offline (PStr "Hello") "en" "hi" (Some "key") None None [])
  = Returns (translate_failure "Request failed: Connection refused"
               (PStr "Hello") "en" "hi").
Proof.
  apply (translate_text_transport_error offline (PStr "Hello") "en" "hi"
           (Some "key") None None []
           (request_exception "Connection refused")); reflexivity.
Defined.

Lemma translate_text_raises_no_request_exception_witness :
  exists name,
    exn_cls (builtin_error "KeyError" "'translations'") = OtherException name.
Proof.
  apply (translate_text_raises_no_request_exception malformed_world
           (PStr "Hello") "en" "hi" (Some "key") None None []
           (snd (translate_text malformed_world (PStr "Hello") "en" "hi"
                   (Some "key") None None []))).
  reflexivity.
Defined.

Lemma translate_text_endpoint_slashes_witness :
  translate_text hello_world (PStr "Hello") "en" "hi" (Some "key") None
    (Some ("https://example.org" ++ repeat_char "/" 2)) []
  = translate_text hello_world (PStr "Hello") "en" "hi" (Some "key") None
      (Some "https://example.org") []
  /\
  exists req,
    filter is_network
      (new_events
         (translate_text hello_world (PStr "Hello") "en" "hi" (Some "key") None
            (Some ("https://example.org" ++ repeat_char "/" 2))) [])
    = [HttpPost req]
    /\ post_url req = "https://example.org/translate".
Proof.
  destruct (translate_text_endpoint_slashes hello_world (PStr "Hello") "en"
              "hi" (Some "key") None "https://example.org" 2 [])
    as [Hsame Hurl]; [discriminate|].
  split; [exact Hsame | exact (Hurl eq_refl)].
Defined.

Lemma translate_text_success_witness :
  fst (translate_text detecting_world (PStr "Hello") "auto" "hi" (Some "key")
         None None [])
  = Returns (translate_success (PStr "Hello") "auto" "hi"
               (PStr "namaste") (PStr "en")).
Proof.
  eapply (translate_text_success detecting_world (PStr "Hello") "auto" "hi"
            (Some "key") None None []); reflexivity.
Defined.

Lemma translate_text_malformed_body_raises_witness :
  exists e,
    fst (translate_text malformed_world (PStr "Hello") "en" "hi" (Some "key")
           None None []) = Raises e
    /\ (exn_cls e = OtherException "KeyError"
        \/ exn_cls e = OtherException "IndexError"
        \/ exn_cls e = OtherException "TypeError").
Proof.
  eapply (translate_text_malformed_body_raises malformed_world (PStr "Hello")
            "en" "hi" (Some "key") None None []); reflexivity.
Defined.

(** * openai_client.py: further properties *)

Lemma openai_error_message_preferred (w : World) (e : exn) :
  openai_error_message w e = preferred_message w e.
Proof.
  unfold openai_error_message, preferred_message.
  destruct (exn_message e); [reflexivity|].
  destruct (exn_body e) as [body|]; [|reflexivity].
  destruct body as [|b|z|s|l|d]; cbn [truthy].
  - reflexivity.
  - now destruct b.
  - now destruct (negb (z =? 0)).
  - now destruct (negb (String.eqb s "")).
  - now destruct l.
  - now destruct d.
Qed.

Section GenerateFurther.

Variable w : World.
Variables (prompt : string) (system_message : option string).
Variables (temperature : Q) (max_tokens : Z).
Variables (api_key endpoint deployment_name : option string).

(** The result of the decision table is one of the two envelopes. *)
Lemma generate_ai_response_table_shape (t : trace) :
  let r := fst (generate_ai_response_table w prompt system_message
                  temperature max_tokens api_key endpoint deployment_name t) in
  (exists m, r = generate_failure m prompt)
  \/ (exists content u,
        r = generate_success prompt content u
              (openai_deployment w deployment_name)).
Proof.
  unfold generate_ai_response_table.
  destruct (truthy_opt (openai_key w api_key)); cbn [negb fst];
    [|left; eauto].
  destruct (truthy_opt (openai_endpoint w endpoint)); cbn [negb fst];
    [|left; eauto].
  destruct (client_init w _ _); cbn [fst];
    [left; unfold openai_failure; eauto|].
  destruct (chat_create w _ _ _) as [e|c];
    [left; unfold openai_failure; eauto|].
  unfold completion_result, openai_failure.
  destruct (choices c) as [|content rest]; [left; eauto|].
  destruct (completion_usage c) as [u|]; [|left; eauto].
  right. exists content, u. reflexivity.
Qed.

End GenerateFurther.

(** X8.  [generate_ai_response] never raises, and what it returns is one
    of two envelopes, both repeating the prompt: a success with [error]
    [None], the response, the three token counts and the deployment as
    [model]; or a failure with an error message and both [response] and
    [usage] [None]. *)
Theorem generate_ai_response_envelope (w : World) (prompt : string)
    (system_message : option string) (temperature : Q) (max_tokens : Z)
    (api_key endpoint deployment_name : option string) (t : trace) :
  exists r t',
    generate_ai_response w prompt system_message temperature max_tokens
      api_key endpoint deployment_name t = (Returns r, t')
    /\ field "prompt" r = Some (PStr prompt)
    /\ ((field "success" r = Some (PBool true)
         /\ field "error" r = Some PNone
         /\ field "model" r = Some (PStr (openai_deployment w deployment_name))
         /\ exists content u,
              field "response" r = Some (of_opt content)
              /\ field "usage" r
                 = Some (PDict [("prompt_tokens", PInt (prompt_tokens u));
                                ("completion_tokens",
                                 PInt (completion_tokens u));
                                ("total_tokens", PInt (total_tokens u))]))
        \/
        (field "success" r = Some (PBool false)
         /\ (exists m, field "error" r = Some (PStr m))
         /\ field "response" r = Some PNone
         /\ field "usage" r = Some PNone)).
Proof.
  rewrite generate_ai_response_eq.
  pose proof (generate_ai_response_table_shape w prompt system_message
                temperature max_tokens api_key endpoint deployment_name t)
    as Hshape.
  destruct (generate_ai_response_table _ _ _ _ _ _ _ _ _) as [r evs].
  cbn [fst] in Hshape. exists r. eexists. split; [reflexivity|].
  destruct Hshape as [[m ->] | (content & u & ->)].
  - split; [reflexivity|]. right. cbn.
    split; [reflexivity|]. split; [eexists; reflexivity|].
    split; reflexivity.
  - split; [reflexivity|]. left. cbn.
    split; [reflexivity|]. split; [reflexivity|]. split; [reflexivity|].
    exists content, u. split; reflexivity.
Qed.

Section GenerateConfigured.

Variable w : World.
Variables (prompt : string) (system_message : option string).
Variables (temperature : Q) (max_tokens : Z).
Variables (api_key endpoint deployment_name : option string).
Variable t : trace.

Hypothesis key_present : truthy_opt (openai_key w api_key) = true.
Hypothesis endpoint_present : truthy_opt (openai_endpoint w endpoint) = true.

Lemma generate_ai_response_configured :
  generate_ai_response w prompt system_message temperature max_tokens
    api_key endpoint deployment_name t
  = match client_init w (seen t) (openai_client_of w api_key endpoint) with
    | Some e =>
        (Returns (openai_failure w prompt e),
         (t ++ [Enter_generate_ai_response prompt system_message;
                ClientInit (openai_client_of w api_key endpoint)])%list)
    | None =>
        (Returns
           match
             chat_create w
               (seen t ++ [ClientInit (openai_client_of w api_key endpoint)])%list
               (openai_client_of w api_key endpoint)
               (mkChat (openai_deployment w deployment_name)
                  (build_messages prompt system_message)
                  temperature max_tokens)
           with
           | inl e => openai_failure w prompt e
           | inr r =>
               completion_result w prompt
                 (openai_deployment w deployment_name) r
           end,
         (t ++ [Enter_generate_ai_response prompt system_message;
                ClientInit (openai_client_of w api_key endpoint);
                ChatCreate (openai_client_of w api_key endpoint)
                  (mkChat (openai_deployment w deployment_name)
                     (build_messages prompt system_message)
                     temperature max_tokens)])%list)
    end.
Proof.
  rewrite generate_ai_response_eq. unfold generate_ai_response_table.
  rewrite key_present, endpoint_present. cbn [negb].
  destruct (client_init w (seen t) (openai_client_of w api_key endpoint));
    reflexivity.
Qed.

(** X9.  With a key and an endpoint, a client that constructs and a
    completion that has a first choice and a usage block,
    [generate_ai_response] builds the client, sends one chat request
    (the deployment, the system message and then the user prompt, the
    caller's temperature and token cap) and returns the success envelope
    with the first choice's content, the usage counts and the
    deployment. *)
Theorem generate_ai_response_success (r : completion)
    (content : option string) (rest : list (option string)) (u : usage) :
  client_init w (seen t) (openai_client_of w api_key endpoint) = None ->
  chat_create w
    (seen t ++ [ClientInit (openai_client_of w api_key endpoint)])%list
    (openai_client_of w api_key endpoint)
    (mkChat (openai_deployment w deployment_name)
       (build_messages prompt system_message) temperature max_tokens)
  = inr r ->
  choices r = content :: rest ->
  completion_usage r = Some u ->
  generate_ai_response w prompt system_message temperature max_tokens
    api_key endpoint deployment_name t
  = (Returns (generate_success prompt content u
                (openai_deployment w deployment_name)),
     (t ++ [Enter_generate_ai_response prompt system_message;
            ClientInit (openai_client_of w api_key endpoint);
            ChatCreate (openai_client_of w api_key endpoint)
              (mkChat (openai_deployment w deployment_name)
                 (build_messages prompt system_message)
                 temperature max_tokens)])%list).
Proof.
  intros Hinit Hchat Hchoices Husage.
  rewrite generate_ai_response_configured.
  rewrite Hinit, Hchat. unfold completion_result.
  now rewrite Hchoices, Husage.
Qed.

(** X10.  When the construction of the client or the chat request
    raises, [generate_ai_response] returns the failure "OpenAI API
    Error: " followed by the exception's [message] attribute when it has
    one, else by the [message] of its [body] when that is an object
    holding one, else by the exception's text. *)
Theorem generate_ai_response_sdk_error (e : exn) :
  client_init w (seen t) (openai_client_of w api_key endpoint) = Some e
  \/ (client_init w (seen t) (openai_client_of w api_key endpoint) = None
      /\ chat_create w
           (seen t ++ [ClientInit (openai_client_of w api_key endpoint)])%list
           (openai_client_of w api_key endpoint)
           (mkChat (openai_deployment w deployment_name)
              (build_messages prompt system_message) temperature max_tokens)
         = inl e) ->
  fst (generate_ai_response w prompt system_message temperature max_tokens
         api_key endpoint deployment_name t)
  = Returns (generate_failure
               ("OpenAI API Error: " ++ preferred_message w e) prompt).
Proof.
  intros H. rewrite generate_ai_response_configured.
  unfold openai_failure.
  destruct H as [Hinit | [Hinit Hchat]].
  - rewrite Hinit. cbn [fst]. now rewrite openai_error_message_preferred.
  - rewrite Hinit, Hchat. cbn [fst]. now rewrite openai_error_message_preferred.
Qed.

(** X11.  A completion without choices, or with a first choice but no
    usage block, does not make [generate_ai_response] raise: it returns
    a failure whose error is that of the failed access. *)
Theorem generate_ai_response_incomplete_completion (r : completion) :
  client_init w (seen t) (openai_client_of w api_key endpoint) = None ->
  chat_create w
    (seen t ++ [ClientInit (openai_client_of w api_key endpoint)])%list
    (openai_client_of w api_key endpoint)
    (mkChat (openai_deployment w deployment_name)
       (build_messages prompt system_message) temperature max_tokens)
  = inr r ->
  (choices r = [] ->
   fst (generate_ai_response w prompt system_message temperature max_tokens
          api_key endpoint deployment_name t)
   = Returns (generate_failure "OpenAI API Error: list index out of range"
                prompt))
  /\
  (choices r <> [] -> completion_usage r = None ->
   fst (generate_ai_response w prompt system_message temperature max_tokens
          api_key endpoint deployment_name t)
   = Returns (generate_failure
                "OpenAI API Error: 'NoneType' object has no attribute 'prompt_tokens'"
                prompt)).
Proof.
  intros Hinit Hchat.
  rewrite generate_ai_response_configured.
  rewrite Hinit, Hchat. unfold completion_result. cbn [fst].
  split.
  - intros ->. reflexivity.
  - intros Hne Hu. destruct (choices r); [contradiction|].
    rewrite Hu. reflexivity.
Qed.

(** X13.  A caller's system message that is not empty is sent as it is:
    every chat request of the call carries it as the system message,
    followed by the user prompt. *)
Theorem generate_ai_response_sends_system_message (s : string) c' req' :
  system_message = Some s ->
  s <> "" ->
  In (ChatCreate c' req')
     (new_events
        (generate_ai_response w prompt system_message temperature max_tokens
           api_key endpoint deployment_name) t) ->
  chat_messages req' = [("system", s); ("user", prompt)].
Proof.
  intros Hs Hne Hin.
  assert (Hm : build_messages prompt system_message
               = [("system", s); ("user", prompt)]).
  { rewrite Hs. unfold build_messages, truthy_opt. cbn.
    apply String.eqb_neq in Hne. now rewrite Hne. }
  rewrite generate_ai_response_events in Hin.
  unfold generate_ai_response_table in Hin.
  rewrite key_present, endpoint_present in Hin. cbn [negb] in Hin.
  destruct (client_init w (seen t) (openai_client_of w api_key endpoint));
    cbn [snd] in Hin.
  - destruct Hin as [H|[H|[]]]; discriminate H.
  - destruct Hin as [H|[H|[H|[]]]]; try discriminate H.
    injection H as _ <-. exact Hm.
Qed.

End GenerateConfigured.

Section Explain.

Variable w : World.
Variables (text audience : string) (kw : kwargs).

Lemma audience_prefix_explanation_line :
  audience_prefix audience = explanation_line audience.
Proof.
  unfold audience_prefix, explanation_line, audience_prompts, get_or.
  destruct (String.eqb_spec audience "general") as [->|_]; [reflexivity|].
  destruct (String.eqb audience "technical"); [reflexivity|].
  destruct (String.eqb audience "beginner"); reflexivity.
Qed.

(** X12.  [explain_text] sends to [generate_ai_response] the prompt made
    of the audience's instruction line, a blank line and the text, with
    the fixed skilled-teacher system message and its keyword arguments
    unchanged, and returns what that call returns; it never raises.  An
    audience other than "general", "technical" and "beginner" gets the
    general line. *)
Theorem explain_text_delegates (t : trace) :
  explain_text w text audience kw t
  = generate_ai_response w
      (explanation_line audience ++ nl ++ nl ++ text)
      (Some "You are a skilled teacher who explains complex topics clearly.")
      (kw_temperature kw) (kw_max_tokens kw)
      (kw_api_key kw) (kw_endpoint kw) (kw_deployment_name kw) t
  /\ (exists r t', explain_text w text audience kw t = (Returns r, t'))
  /\ (audience <> "general" -> audience <> "technical" ->
      audience <> "beginner" ->
      explanation_line audience
      = "Explain the following in simple, everyday language:").
Proof.
  assert (E : explain_text w text audience kw t
    = generate_ai_response w
        (explanation_line audience ++ nl ++ nl ++ text)
        (Some teacher_system_message)
        (kw_temperature kw) (kw_max_tokens kw)
        (kw_api_key kw) (kw_endpoint kw) (kw_deployment_name kw) t).
  { unfold explain_text, explain_prompt.
    now rewrite audience_prefix_explanation_line. }
  repeat split.
  - exact E.
  - rewrite E, generate_ai_response_eq.
    destruct (generate_ai_response_table _ _ _ _ _ _ _ _ _). eauto.
  - intros _ Ht Hb. unfold explanation_line.
    apply String.eqb_neq in Ht, Hb. now rewrite Ht, Hb.
Qed.

End Explain.

Lemma explain_text_delegates_witness :
  explanation_line "children"
  = "Explain the following in simple, everyday language:".
Proof.
  apply (explain_text_delegates offline "Some text." "children" no_kwargs []);
    discriminate.
Defined.

Lemma generate_ai_response_success_witness :
  fst (generate_ai_response (chat_world (inr short_summary)) "Hi" None
         (7 # 10) 1000 None None None [])
  = Returns (generate_success "Hi" (Some "A short summary.")
               (mkUsage 40 5 45) "gpt-4o-mini").
Proof.
  rewrite (generate_ai_response_success (chat_world (inr short_summary))
             "Hi" None (7 # 10) 1000 None None None [] eq_refl eq_refl
             short_summary (Some "A short summary.") [] (mkUsage 40 5 45)
             eq_refl eq_refl eq_refl eq_refl).
  reflexivity.
Defined.

Lemma generate_ai_response_sdk_error_witness :
  fst (generate_ai_response (chat_world (inl rate_limit_error)) "Hi" None
         (7 # 10) 1000 None None None [])
  = Returns (generate_failure "OpenAI API Error: Too many requests" "Hi").
Proof.
  apply (generate_ai_response_sdk_error (chat_world (inl rate_limit_error))
           "Hi" None (7 # 10) 1000 None None None [] eq_refl eq_refl
           rate_limit_error).
  right. split; reflexivity.
Defined.

Lemma generate_ai_response_incomplete_completion_witness :
  fst (generate_ai_response (chat_world (inr (mkCompletion [] None))) "Hi"
         None (7 # 10) 1000 None None None [])
  = Returns (generate_failure "OpenAI API Error: list index out of range"
               "Hi")
  /\
  fst (generate_ai_response
         (chat_world (inr (mkCompletion [Some "text"] None))) "Hi"
         None (7 # 10) 1000 None None None [])
  = Returns (generate_failure
               "OpenAI API Error: 'NoneType' object has no attribute 'prompt_tokens'"
               "Hi").
Proof.
  split.
  - apply (generate_ai_response_incomplete_completion
             (chat_world (inr (mkCompletion [] None))) "Hi" None (7 # 10)
             1000 None None None [] eq_refl eq_refl
             (mkCompletion [] None) eq_refl eq_refl).
    reflexivity.
  - apply (generate_ai_response_incomplete_completion
             (chat_world (inr (mkCompletion [Some "text"] None))) "Hi" None
             (7 # 10) 1000 None None None [] eq_refl eq_refl
             (mkCompletion [Some "text"] None) eq_refl eq_refl).
    + discriminate.
    + reflexivity.
Defined.

Lemma generate_ai_response_sends_system_message_witness :
  chat_messages
    (mkChat "gpt-4o-mini" [("system", "Be brief."); ("user", "Hi")]
       (7 # 10) 1000)
  = [("system", "Be brief."); ("user", "Hi")].
Proof.
  apply (generate_ai_response_sends_system_message
           (chat_world (inr short_summary)) "Hi" (Some "Be brief.")
           (7 # 10) 1000 None None None [] eq_refl eq_refl "Be brief."
           (openai_client_of (chat_world (inr short_summary)) None None)).
  - reflexivity.
  - discriminate.
  - right. right. left. reflexivity.
Defined.

(** * document_processor.py: further properties *)

Lemma pdf_loop_raises (before : list (option string)) (e : exn)
    (after : list (exn + option string)) :
  forall (start : nat) (acc : list string) (t : trace),
    pdf_loop (map inr before ++ inl e :: after)%list start acc t
    = (Raises e, t).
Proof.
  induction before as [|page before IH]; intros start acc t.
  - reflexivity.
  - cbn [map app pdf_loop lift]. unfold bind at 1. cbn [ret]. apply IH.
Qed.

Section Extractors.

Variable w : World.
Variable file_path : string.
Variable t : trace.

(** X14.  A PDF is extracted all or nothing: when the document cannot be
    opened, or when any page fails to extract, [extract_text_from_pdf]
    returns the failure "Failed to extract PDF text: " followed by the
    exception's text, and the text of the pages read before is not
    returned. *)
Theorem extract_text_from_pdf_failure (e : exn) :
  pdf_pages w (seen t) file_path = inl e
  \/ (exists before after,
        pdf_pages w (seen t) file_path
        = inr (map inr before ++ inl e :: after)%list) ->
  extract_text_from_pdf w file_path t
  = (Returns (extraction_failure ("Failed to extract PDF text: " ++ exn_str e)),
     (t ++ [PdfOpen file_path])%list).
Proof.
  intros H. unfold extract_text_from_pdf, try_except.
  cbv [bind history emit].
  destruct H as [H | (before & after & H)]; rewrite H; cbn [lift raise ret].
  - reflexivity.
  - now rewrite pdf_loop_raises.
Qed.

(** X15.  For a Word document whose paragraphs are ASCII text,
    [extract_text_from_docx] returns the paragraphs that are not blank
    (empty or white space only), in order and joined by a blank line,
    and [paragraph_count] is their number; a document that cannot be
    opened gives the failure "Failed to extract DOCX text: " followed by
    the exception's text. *)
Theorem extract_text_from_docx_paragraphs :
  (forall doc,
      docx_paragraphs w (seen t) file_path = inr doc ->
      forallb ascii_only doc = true ->
      extract_text_from_docx w file_path t
      = (Returns (docx_success (filter (fun p => negb (is_blank p)) doc)),
         (t ++ [DocxOpen file_path])%list)
      /\ (List.length (filter (fun p => negb (is_blank p)) doc)
          <= List.length doc)%nat
      /\ (forallb is_blank doc = true ->
          extract_text_from_docx w file_path t
          = (Returns (docx_success []), (t ++ [DocxOpen file_path])%list)))
  /\
  (forall e,
      docx_paragraphs w (seen t) file_path = inl e ->
      extract_text_from_docx w file_path t
      = (Returns (extraction_failure
                    ("Failed to extract DOCX text: " ++ exn_str e)),
         (t ++ [DocxOpen file_path])%list)).
Proof.
  split.
  - intros doc Hdoc _.
    assert (E : extract_text_from_docx w file_path t
      = (Returns (docx_success (filter (fun p => negb (is_blank p)) doc)),
         (t ++ [DocxOpen file_path])%list)).
    { unfold extract_text_from_docx, try_except. cbv [bind history emit].
      rewrite Hdoc. reflexivity. }
    split; [exact E|]. split; [apply filter_length_le|].
    intros Hblank. rewrite E.
    replace (filter (fun p => negb (is_blank p)) doc) with (@nil string);
      [reflexivity|].
    clear E Hdoc. induction doc as [|p doc IH]; [reflexivity|].
    simpl in Hblank. apply andb_true_iff in Hblank as [Hp Hr].
    simpl. rewrite Hp. simpl. auto.
  - intros e He. unfold extract_text_from_docx, try_except.
    cbv [bind history emit]. rewrite He. reflexivity.
Qed.

(** The call of [extract_text] on a path that exists, by the extractor
    that its type selects. *)
Lemma extract_text_existing (file_type : option string) :
  path_exists w (seen t) file_path = true ->
  extract_text w file_path file_type t
  = match get_extractor (resolve_type w file_path file_type) extractors with
    | None =>
        (Returns (unsupported (resolve_type w file_path file_type)),
         (t ++ [PathExists file_path])%list)
    | Some extractor => extractor w file_path (t ++ [PathExists file_path])%list
    end.
Proof.
  intros H. unfold extract_text, exists_. cbv [bind history emit ret].
  rewrite H. cbn [negb].
  destruct (get_extractor _ extractors); reflexivity.
Qed.

(** X16.  For a path that exists and whose type resolves to txt or
    text, [extract_text] tests the path and then reads the file exactly
    once.  It puts the text that the read yields (what [f.read()] gives
    in text mode, decoded and with Python's line ends) under [text]
    with nothing added or removed, and [file_type] txt; when the read
    raises (a file that is not UTF-8, a permission error) it returns the
    failure "Failed to read text file: " followed by the exception's
    text and does not raise. *)
Theorem extract_text_reads_text_file (file_type : option string) :
  path_exists w (seen t) file_path = true ->
  resolve_type w file_path file_type = "txt"
  \/ resolve_type w file_path file_type = "text" ->
  (forall content,
      read_text w (seen t ++ [PathExists file_path])%list file_path
      = inr content ->
      extract_text w file_path file_type t
      = (Returns (txt_success content),
         (t ++ [PathExists file_path; FileRead file_path])%list))
  /\
  (forall e,
      read_text w (seen t ++ [PathExists file_path])%list file_path = inl e ->
      extract_text w file_path file_type t
      = (Returns (extraction_failure
                    ("Failed to read text file: " ++ exn_str e)),
         (t ++ [PathExists file_path; FileRead file_path])%list)).
Proof.
  intros Hx Ht.
  assert (E : extract_text w file_path file_type t
    = extract_text_from_txt w file_path (t ++ [PathExists file_path])%list)
    by (rewrite (extract_text_existing _ Hx);
        destruct Ht as [Ht|Ht]; rewrite Ht; reflexivity).
  rewrite E. unfold extract_text_from_txt, try_except.
  cbv [bind history emit]. rewrite seen_app. cbn [seen filter is_ghost negb].
  split.
  - intros content Hr. rewrite Hr. cbn [lift ret].
    rewrite <- app_assoc. reflexivity.
  - intros e Hr. rewrite Hr. cbn [lift raise].
    rewrite <- app_assoc. reflexivity.
Qed.

(** X17.  A type hint is taken as given and overrides the extension: for
    a path that exists and a non-empty hint that is not literally one of
    pdf, docx, txt and text, [extract_text] returns the unsupported-type
    failure naming the hint, whatever the file's extension and whatever
    the hint's lower-case form. *)
Theorem extract_text_hint_overrides (hint : string) :
  path_exists w (seen t) file_path = true ->
  hint <> "" ->
  ~ In hint ["pdf"; "docx"; "txt"; "text"] ->
  extract_text w file_path (Some hint) t
  = (Returns (extraction_failure
                ("Unsupported file type: " ++ hint
                   ++ ". Supported: pdf, docx, txt")),
     (t ++ [PathExists file_path])%list).
Proof.
  intros Hx Hne Hout.
  assert (Hr : resolve_type w file_path (Some hint) = hint).
  { unfold resolve_type, truthy_opt. cbn.
    apply String.eqb_neq in Hne. now rewrite Hne. }
  rewrite (extract_text_existing _ Hx), Hr.
  now rewrite (get_extractor_none _ Hout).
Qed.

(** X18.  Without a hint the extension decides, whatever its case: for a
    path that exists and whose extension lower-cases to [.pdf], [.docx]
    or [.txt], [extract_text] is the PDF, the Word or the plain-text
    extractor run on the path after the existence test. *)
Theorem extract_text_routes_by_extension (root ext : string) :
  path_exists w (seen t) file_path = true ->
  splitext w file_path = (root, ext) ->
  (lower ext = ".pdf" ->
   extract_text w file_path None t
   = extract_text_from_pdf w file_path (t ++ [PathExists file_path])%list)
  /\
  (lower ext = ".docx" ->
   extract_text w file_path None t
   = extract_text_from_docx w file_path (t ++ [PathExists file_path])%list)
  /\
  (lower ext = ".txt" ->
   extract_text w file_path None t
   = extract_text_from_txt w file_path (t ++ [PathExists file_path])%list).
Proof.
  intros Hx Hs.
  assert (Hr : resolve_type w file_path None = lstrip "." (lower ext)).
  { unfold resolve_type. cbn. now rewrite Hs. }
  rewrite (extract_text_existing _ Hx), Hr.
  repeat split; intros ->; reflexivity.
Qed.

End Extractors.

Lemma extract_text_from_pdf_failure_witness :
  extract_text_from_pdf damaged_pdf "/tmp/damaged.pdf" []
  = (Returns (extraction_failure
                "Failed to extract PDF text: unexpected end of stream"),
     [PdfOpen "/tmp/damaged.pdf"]).
Proof.
  apply (extract_text_from_pdf_failure damaged_pdf "/tmp/damaged.pdf" []
           (builtin_error "PDFSyntaxError" "unexpected end of stream")).
  right. exists [Some "alpha"; Some "beta"], []. reflexivity.
Defined.

Lemma extract_text_from_docx_paragraphs_witness :
  extract_text_from_docx letter_docx "/tmp/letter.docx" []
  = (Returns (docx_success ["Dear reader,"; "Yours."]),
     [DocxOpen "/tmp/letter.docx"]).
Proof.
  destruct (extract_text_from_docx_paragraphs letter_docx "/tmp/letter.docx" [])
    as [Hopened _].
  destruct (Hopened ["Dear reader,"; "   "; ""; "Yours."] eq_refl eq_refl)
    as [E _].
  exact E.
Defined.

Lemma extract_text_reads_text_file_witness :
  extract_text readme_world "/tmp/readme.txt" None []
  = (Returns (txt_success "hello, world"),
     [PathExists "/tmp/readme.txt"; FileRead "/tmp/readme.txt"]).
Proof.
  destruct (extract_text_reads_text_file readme_world "/tmp/readme.txt" []
              None eq_refl (or_introl eq_refl)) as [Hread _].
  exact (Hread "hello, world" eq_refl).
Defined.

Lemma extract_text_hint_overrides_witness :
  extract_text two_page_pdf "/tmp/report.pdf" (Some "PDF") []
  = (Returns (extraction_failure
                "Unsupported file type: PDF. Supported: pdf, docx, txt"),
     [PathExists "/tmp/report.pdf"]).
Proof.
  apply (extract_text_hint_overrides two_page_pdf "/tmp/report.pdf" [] "PDF").
  - reflexivity.
  - discriminate.
  - simpl. intros [H|[H|[H|[H|[]]]]]; discriminate H.
Defined.

Lemma extract_text_routes_by_extension_witness :
  extract_text capitals_world "/tmp/REPORT.PDF" None []
  = extract_text_from_pdf capitals_world "/tmp/REPORT.PDF"
      [PathExists "/tmp/REPORT.PDF"].
Proof.
  destruct (extract_text_routes_by_extension capitals_world "/tmp/REPORT.PDF"
              [] "/tmp/REPORT" ".PDF" eq_refl eq_refl) as [Hpdf _].
  exact (Hpdf eq_refl).
Defined.

(** * main.py: further properties *)

Section PipelineFurther.

Variable w : World.
Variables (input_text target_language summary_style : string).
Variables (t t1 : trace).
Variables (content : option string) (u : usage) (model : string).

Hypothesis summarized :
  summarize_text w input_text summary_style no_kwargs t
  = (Returns (summary_success (summarize_prompt input_text summary_style)
                content u model), t1).

(** After a successful summary the pipeline is its second stage. *)
Lemma process_and_translate_second_stage :
  process_and_translate w input_text target_language summary_style t
  = translate_stage w input_text target_language
      [("input", PStr input_text);
       ("target_language", PStr target_language);
       ("stages",
        PDict [("openai_summary",
                summary_success (summarize_prompt input_text summary_style)
                  content u model)])]
      (summary_success (summarize_prompt input_text summary_style)
         content u model) t1.
Proof.
  unfold process_and_translate. unfold bind at 1. rewrite summarized.
  reflexivity.
Qed.

(** X19.  When the summary succeeds without content (the completion's
    first choice has content [None]), the pipeline does not return: it
    raises a [TypeError] on the length of the summary, before
    [translate_text] is entered. *)
Theorem process_and_translate_no_content :
  content = None ->
  process_and_translate w input_text target_language summary_style t
  = (Raises (builtin_error "TypeError"
               "object of type 'NoneType' has no len()"), t1).
Proof.
  intros Hc. rewrite process_and_translate_second_stage, Hc. reflexivity.
Qed.

Variable summary : string.
Hypothesis has_content : content = Some summary.

Lemma translate_stage_translates (result : dict) :
  translate_stage w input_text target_language result
    (summary_success (summarize_prompt input_text summary_style)
       content u model) t1
  = (translation_result <-
       translate_text w (PStr summary) "en" target_language None None None ;;
     result <- setitem_in "stages" "translator" translation_result result ;;
     finish_pipeline w input_text target_language result (PStr summary)
       translation_result) t1.
Proof.
  rewrite has_content. unfold translate_stage, summary_success.
  cbn [getitem lookup String.eqb Ascii.eqb Bool.eqb of_opt].
  unfold bind at 1. cbn [ret].
  assert (Hp : preview (PStr summary) t1 = (Returns tt, t1)).
  { unfold preview, bind. cbn [py_len ret].
    destruct (Nat.ltb 200 (String.length summary)); reflexivity. }
  unfold bind at 1. rewrite Hp.
  unfold bind at 1. cbn [ret].
  unfold bind at 1. cbn [getitem lookup String.eqb Ascii.eqb Bool.eqb ret].
  reflexivity.
Qed.

(** X20.  When the summary succeeds and [translate_text] returns a
    failure, the pipeline returns an envelope with [success] false and
    the error "Translator stage failed: " followed by the translator's
    error; the envelope repeats the input and the target language and
    keeps the raw results of both stages. *)
Theorem process_and_translate_translator_failure (m : string) (t2 : trace) :
  translate_text w (PStr summary) "en" target_language None None None t1
  = (Returns (translate_failure m (PStr summary) "en" target_language), t2) ->
  process_and_translate w input_text target_language summary_style t
  = (Returns
       (pipeline_envelope input_text target_language
          [("openai_summary",
            summary_success (summarize_prompt input_text summary_style)
              (Some summary) u model);
           ("translator",
            translate_failure m (PStr summary) "en" target_language)]
          [("success", PBool false);
           ("error", PStr ("Translator stage failed: " ++ m))]),
     t2).
Proof.
  intros Htr.
  rewrite process_and_translate_second_stage, translate_stage_translates.
  unfold bind at 1. rewrite Htr. rewrite has_content. reflexivity.
Qed.

(** X21.  When both stages succeed, the pipeline returns an envelope
    with [success] true and a [final_output] that holds the input, the
    English summary, the translated summary and the target language;
    the envelope keeps the raw results of both stages. *)
Theorem process_and_translate_success (translated : string)
    (detected : pyval) (t2 : trace) :
  translate_text w (PStr summary) "en" target_language None None None t1
  = (Returns (translate_success (PStr summary) "en" target_language
                (PStr translated) detected), t2) ->
  process_and_translate w input_text target_language summary_style t
  = (Returns
       (pipeline_envelope input_text target_language
          [("openai_summary",
            summary_success (summarize_prompt input_text summary_style)
              (Some summary) u model);
           ("translator",
            translate_success (PStr summary) "en" target_language
              (PStr translated) detected)]
          [("success", PBool true);
           ("final_output",
            PDict [("original_text", PStr input_text);
                   ("english_summary", PStr summary);
                   ("translated_summary", PStr translated);
                   ("target_language", PStr target_language)])]),
     t2).
Proof.
  intros Htr.
  rewrite process_and_translate_second_stage, translate_stage_translates.
  unfold bind at 1. rewrite Htr. rewrite has_content.
  unfold bind at 1. cbn [setitem_in getitem lookup String.eqb Ascii.eqb
                          Bool.eqb bind ret].
  unfold finish_pipeline, translate_success.
  cbn [getitem lookup String.eqb Ascii.eqb Bool.eqb].
  unfold bind at 1. cbn [ret truthy negb].
  unfold bind at 1. cbn [ret].
  assert (Hp : preview (PStr translated) t2 = (Returns tt, t2)).
  { unfold preview, bind. cbn [py_len ret].
    destruct (Nat.ltb 200 (String.length translated)); reflexivity. }
  unfold bind at 1. rewrite Hp. reflexivity.
Qed.

End PipelineFurther.

Lemma process_and_translate_no_content_witness :
  fst (process_and_translate no_content_world "A long text." "hi" "concise" [])
  = Raises (builtin_error "TypeError" "object of type 'NoneType' has no len()").
Proof.
  rewrite (process_and_translate_no_content no_content_world "A long text."
             "hi" "concise" []
             (snd (summarize_text no_content_world "A long text." "concise"
                     no_kwargs []))
             None (mkUsage 40 0 40) "gpt-4o-mini" eq_refl eq_refl).
  reflexivity.
Defined.

Lemma process_and_translate_translator_failure_witness :
  fst (process_and_translate no_translator_world "A long text." "hi"
         "concise" [])
  = Returns
      (pipeline_envelope "A long text." "hi"
         [("openai_summary",
           summary_success (summarize_prompt "A long text." "concise")
             (Some "A short summary.") (mkUsage 40 5 45) "gpt-4o-mini");
          ("translator",
           translate_failure missing_translator_key
             (PStr "A short summary.") "en" "hi")]
         [("success", PBool false);
          ("error",
           PStr "Translator stage failed: Missing AZURE_TRANSLATOR_KEY. Please set it in .env file.")]).
Proof.
  rewrite (process_and_translate_translator_failure no_translator_world
             "A long text." "hi" "concise" []
             (snd (summarize_text no_translator_world "A long text." "concise"
                     no_kwargs []))
             (Some "A short summary.") (mkUsage 40 5 45) "gpt-4o-mini" eq_refl
             "A short summary." eq_refl missing_translator_key
             (snd (translate_text no_translator_world (PStr "A short summary.")
                     "en" "hi" None None None
                     (snd (summarize_text no_translator_world "A long text."
                             "concise" no_kwargs []))))
             eq_refl).
  reflexivity.
Defined.

Lemma process_and_translate_success_witness :
  fst (process_and_translate pipeline_world "A long text." "hi" "concise" [])
  = Returns
      (pipeline_envelope "A long text." "hi"
         [("openai_summary",
           summary_success (summarize_prompt "A long text." "concise")
             (Some "A short summary.") (mkUsage 40 5 45) "gpt-4o-mini");
          ("translator",
           translate_success (PStr "A short summary.") "en" "hi"
             (PStr "saransh") PNone)]
         [("success", PBool true);
          ("final_output",
           PDict [("original_text", PStr "A long text.");
                  ("english_summary", PStr "A short summary.");
                  ("translated_summary", PStr "saransh");
                  ("target_language", PStr "hi")])]).
Proof.
  rewrite (process_and_translate_success pipeline_world
             "A long text." "hi" "concise" []
             (snd (summarize_text pipeline_world "A long text." "concise"
                     no_kwargs []))
             (Some "A short summary.") (mkUsage 40 5 45) "gpt-4o-mini" eq_refl
             "A short summary." eq_refl "saransh" PNone
             (snd (translate_text pipeline_world (PStr "A short summary.")
                     "en" "hi" None None None
                     (snd (summarize_text pipeline_world "A long text."
                             "concise" no_kwargs []))))
             eq_refl).
  reflexivity.
Defined.

Section PipelineInvariant.

Variable w : World.
Variables (input_text target_language summary_style : string).

(** X22.  Whenever the pipeline returns, its envelope repeats the input
    and the target language and keeps the raw result of the summary
    stage under [stages]; it is either a success with a [final_output],
    or a failure whose error starts with the name of the stage that
    failed, "OpenAI stage failed: " or "Translator stage failed: ". *)
Theorem process_and_translate_envelope (t t' : trace) (r : pyval) :
  process_and_translate w input_text target_language summary_style t
  = (Returns r, t') ->
  field "input" r = Some (PStr input_text)
  /\ field "target_language" r = Some (PStr target_language)
  /\ (exists summary_result t1 stages,
        summarize_text w input_text summary_style no_kwargs t
        = (Returns summary_result, t1)
        /\ field "stages" r = Some (PDict stages)
        /\ lookup "openai_summary" stages = Some summary_result)
  /\ ((field "success" r = Some (PBool true)
       /\ exists final_output,
            field "final_output" r = Some (PDict final_output))
      \/
      (field "success" r = Some (PBool false)
       /\ exists m,
            field "error" r = Some (PStr ("OpenAI stage failed: " ++ m))
            \/ field "error" r
               = Some (PStr ("Translator stage failed: " ++ m)))).
Proof.
  intros H.
  destruct (summarize_text_result w input_text summary_style t)
    as (sr & evs & E & _ & Hshape).
  destruct Hshape as [[m ->] | (content & u & model & ->)].
  - (* the summary failed *)
    unfold process_and_translate in H. unfold bind at 1 in H.
    rewrite E in H. cbn in H. injection H as <- _.
    split; [reflexivity|]. split; [reflexivity|]. split.
    + eexists _, _, _. split; [exact E|]. split; reflexivity.
    + right. split; [reflexivity|]. exists m. left. reflexivity.
  - (* the summary succeeded *)
    fold (summary_success (summarize_prompt input_text summary_style)
            content u model) in E.
    rewrite (process_and_translate_second_stage w input_text target_language
               summary_style t _ content u model E) in H.
    destruct content as [summary|].
    2: { discriminate H. }
    rewrite (translate_stage_translates w input_text target_language
               summary_style _ (Some summary) u model summary eq_refl) in H.
    unfold bind at 1 in H.
    destruct (translate_text w (PStr summary) "en" target_language
                None None None (t ++ evs)%list) as [[tr|e] t2] eqn:T;
      [|discriminate H].
    apply translate_text_shape in T as [[m ->] | (v & d & ->)].
    + cbn in H. injection H as <- _.
      split; [reflexivity|]. split; [reflexivity|]. split.
      * eexists _, _, _. split; [exact E|]. split; reflexivity.
      * right. split; [reflexivity|]. exists m. right. reflexivity.
    + unfold bind at 1 in H.
      cbn [setitem_in getitem lookup String.eqb Ascii.eqb Bool.eqb bind ret]
        in H.
      unfold finish_pipeline, translate_success in H.
      cbn [getitem lookup String.eqb Ascii.eqb Bool.eqb] in H.
      unfold bind at 1 in H. cbn [ret truthy negb] in H.
      unfold bind at 1 in H. cbn [ret] in H.
      unfold bind at 1 in H.
      destruct (preview v t2) as [[[]|e] t3]; [|discriminate H].
      cbn in H. injection H as <- _.
      split; [reflexivity|]. split; [reflexivity|]. split.
      * eexists _, _, _. split; [exact E|]. split; reflexivity.
      * left. split; [reflexivity|]. eexists. reflexivity.
Qed.

End PipelineInvariant.

Lemma process_and_translate_envelope_witness :
  field "input"
    (pipeline_envelope "A long text." "hi"
       [("openai_summary",
         summary_success (summarize_prompt "A long text." "concise")
           (Some "A short summary.") (mkUsage 40 5 45) "gpt-4o-mini");
        ("translator",
         translate_failure missing_translator_key
           (PStr "A short summary.") "en" "hi")]
       [("success", PBool false);
        ("error",
         PStr "Translator stage failed: Missing AZURE_TRANSLATOR_KEY. Please set it in .env file.")])
  = Some (PStr "A long text.").
Proof.
  apply (process_and_translate_envelope no_translator_world "A long text."
           "hi" "concise" []
           (snd (process_and_translate no_translator_world "A long text." "hi"
                   "concise" []))).
  reflexivity.
Defined.

(** * app.py: properties *)

Lemma after_last_append (c : ascii) (stem ext : string) :
  contains_char c ext = false ->
  after_last c (stem ++ String c ext) = Some ext.
Proof.
  intros Hext.
  assert (Hnone : after_last c ext = None).
  { induction ext as [|a ext IH]; [reflexivity|].
    simpl in Hext. apply orb_false_iff in Hext as [Ha Hr].
    simpl. now rewrite (IH Hr), Ha. }
  induction stem as [|a stem IH]; simpl.
  - now rewrite Hnone, Ascii.eqb_refl.
  - now rewrite IH.
Qed.

Lemma contains_char_append (c : ascii) (stem ext : string) :
  contains_char c (stem ++ String c ext) = true.
Proof.
  induction stem as [|a stem IH]; simpl.
  - now rewrite Ascii.eqb_refl.
  - rewrite IH. apply orb_true_r.
Qed.

(** X23.  [allowed_file] looks at what follows the last dot only, and
    not at its case: a name without a dot is refused, and a name
    [stem.ext] whose [ext] has no dot is accepted exactly when [ext]
    lower-cased is pdf, docx or txt, whatever the stem. *)
Theorem allowed_file_by_last_extension (stem ext name : string) :
  (contains_char "." name = false -> allowed_file name = false)
  /\
  (contains_char "." ext = false ->
   allowed_file (stem ++ "." ++ ext)
   = existsb (String.eqb (lower ext)) ["pdf"; "docx"; "txt"]).
Proof.
  split.
  - intros H. unfold allowed_file. now rewrite H.
  - intros H. unfold allowed_file.
    change (stem ++ "." ++ ext) with (stem ++ String "." ext).
    now rewrite contains_char_append, (after_last_append _ _ _ H).
Qed.

Lemma allowed_file_by_last_extension_witness :
  allowed_file "notes" = false
  /\ allowed_file ("archive.tar" ++ "." ++ "PDF") = true.
Proof.
  split.
  - apply (allowed_file_by_last_extension "" "" "notes"). reflexivity.
  - rewrite (proj2 (allowed_file_by_last_extension "archive.tar" "PDF" "")
               eq_refl).
    reflexivity.
Defined.

Lemma lookup_setitem_fresh (k : string) (v : pyval) (d : dict) :
  lookup k d = None -> setitem k v d = (d ++ [(k, v)])%list.
Proof.
  induction d as [|[k' v'] d IH]; simpl; [reflexivity|].
  destruct (String.eqb k k'); [discriminate|].
  intros H. now rewrite (IH H).
Qed.

Lemma lookup_app_fresh (k : string) (d e : dict) :
  lookup k d = None -> lookup k (d ++ e)%list = lookup k e.
Proof.
  induction d as [|[k' v'] d IH]; simpl; [reflexivity|].
  destruct (String.eqb k k'); [discriminate | exact IH].
Qed.

Lemma lookup_not_in (k : string) (d : dict) :
  ~ In k (keys d) -> lookup k d = None.
Proof.
  induction d as [|[k' v'] d IH]; simpl; [reflexivity|].
  intros H. destruct (String.eqb_spec k k') as [->|_].
  - elim H. now left.
  - apply IH. intros Hin. apply H. now right.
Qed.

Lemma keys_language_names (d : dict) :
  keys (map language_name d) = keys d.
Proof.
  unfold keys. rewrite map_map. apply map_ext. now intros [k v].
Qed.

(** The loop adds, after what it has, the display name of each entry. *)
Lemma simplify_languages_names (items : dict) :
  forall (languages : dict) (t : trace),
    forallb is_object (map snd items) = true ->
    NoDup (keys languages ++ keys items) ->
    simplify_languages items languages t
    = (Returns (languages ++ map language_name items)%list, t).
Proof.
  induction items as [|[code info] items IH]; intros languages t Hobj Hnd.
  - simpl. unfold ret. now rewrite app_nil_r.
  - simpl in Hobj. apply andb_true_iff in Hobj as [Hinfo Hrest].
    destruct info as [| | | | |info]; try discriminate Hinfo.
    cbn [simplify_languages method_get]. unfold bind at 1. cbn [ret].
    assert (Hfresh : lookup code languages = None).
    { apply lookup_not_in. intros Hin.
      simpl in Hnd. apply NoDup_remove_2 in Hnd. apply Hnd.
      apply in_or_app. now left. }
    rewrite (lookup_setitem_fresh _ _ _ Hfresh).
    rewrite IH; [| exact Hrest |].
    + rewrite <- app_assoc. reflexivity.
    + unfold keys in *. rewrite map_app. simpl.
      rewrite <- app_assoc. exact Hnd.
Qed.

Section ListLanguages.

Variable w : World.
Variables (t t1 : trace).

(** X24.  [GET /languages] answers 200 with, for each language code of
    the provider's mapping, the [name] of its entry, or the code itself
    when the entry has no name, and with the number of codes as
    [count]; when the listing fails it answers 500 with the listing's
    error. *)
Theorem list_languages_names :
  (forall mapping,
      get_supported_languages w t
      = (Returns (languages_success (PDict mapping)), t1) ->
      NoDup (keys mapping) ->
      forallb is_object (map snd mapping) = true ->
      list_languages w t
      = (Returns
           (PDict [("success", PBool true);
                   ("languages", PDict (map language_name mapping));
                   ("count", PInt (Z.of_nat (List.length mapping)))],
            200),
         t1))
  /\
  (forall m,
      get_supported_languages w t = (Returns (languages_failure m), t1) ->
      list_languages w t
      = (Returns (PDict [("success", PBool false); ("error", PStr m)], 500),
         t1)).
Proof.
  split.
  - intros mapping H Hnd Hobj. unfold list_languages.
    unfold bind at 1. rewrite H. unfold languages_success, bind.
    cbn [getitem lookup String.eqb Ascii.eqb Bool.eqb ret truthy py_items].
    rewrite (simplify_languages_names mapping [] t1 Hobj Hnd).
    cbn [app]. now rewrite length_map.
  - intros m H. unfold list_languages.
    unfold bind at 1. rewrite H. reflexivity.
Qed.

End ListLanguages.

Lemma list_languages_names_witness :
  list_languages two_languages_world []
  = (Returns
       (PDict [("success", PBool true);
               ("languages",
                PDict [("en", PStr "English"); ("tlh", PStr "tlh")]);
               ("count", PInt 2)],
        200),
     [HttpGet
        "https://api.cognitive.microsofttranslator.com/languages?api-version=3.0&scope=translation"
        30]).
Proof.
  destruct (list_languages_names two_languages_world []
              [HttpGet
                 "https://api.cognitive.microsofttranslator.com/languages?api-version=3.0&scope=translation"
                 30]) as [Hok _].
  apply (Hok [("en", PDict [("name", PStr "English"); ("dir", PStr "ltr")]);
              ("tlh", PDict [("dir", PStr "ltr")])]).
  - reflexivity.
  - repeat constructor; simpl; intuition discriminate.
  - reflexivity.
Defined.
